(** * TaCoS: plotting/reward_vs_dt/extended_make_plot.py

    A shallow embedding of the data-shaping pipeline of the script: the
    CSV frames, the row filters, the group-by aggregations into
    [Statistics], the three derived metrics and the calls made on the
    4 x 3 grid of axes.

    Numbers are IEEE binary64 values, as Python floats and numpy float64
    arrays are: the kernel's primitive [float].  A numeric column of a CSV
    file is a float64 column, a flag column a bool column.  pandas'
    reductions (row mean, group mean, group standard deviation) belong to
    the pandas library, not to the repository: they are the fields of the
    class [Pandas], and every statement holds for all of them.

    A Python exception is a [Raise] result; globals the script rebinds
    (SWITCH_COST, MAX_TIME_BETWEEN_SWITCHES) are parameters of the parts
    that read them; a frame or dict that a function mutates is returned by
    it.  Of the calls into matplotlib the curves, bands, scales, titles and
    labels are recorded; font sizes, paddings and the text written by
    [print] are not. *)

From Stdlib Require Import ZArith List String Ascii Bool Floats Lia.
From Stdlib Require Import DecimalString Sorted Permutation.
Import ListNotations.
Set Warnings "-inexact-float".
Local Open Scope string_scope.

(** ** Python exceptions and results *)

Inductive exn : Type :=
| KeyError (key : string)
| IndexError
| AssertionError
| ValueError
| TypeError
| FileNotFoundError (path : string).

Inductive result (A : Type) : Type :=
| Ok (a : A)
| Raise (e : exn).

Arguments Ok {A} a.
Arguments Raise {A} e.

Definition bind {A B : Type} (r : result A) (k : A -> result B) : result B :=
  match r with
  | Ok a => k a
  | Raise e => Raise e
  end.

Notation "x <- c1 ;; c2" := (bind c1 (fun x => c2))
  (at level 61, c1 at next level, right associativity).
Notation "' pat <- c1 ;; c2" := (bind c1 (fun x => match x with pat => c2 end))
  (at level 61, pat pattern, c1 at next level, right associativity).

(** [for x in l: s = body(x, s)], stopping at the first exception. *)
Fixpoint for_each {A S : Type} (l : list A) (body : A -> S -> result S) (s : S)
  : result S :=
  match l with
  | [] => Ok s
  | x :: l' => s' <- body x s ;; for_each l' body s'
  end.

(** [enumerate(l)] *)
Fixpoint enumerate_from {A : Type} (i : nat) (l : list A) : list (nat * A) :=
  match l with
  | [] => []
  | x :: l' => (i, x) :: enumerate_from (S i) l'
  end.

Definition enumerate {A : Type} (l : list A) : list (nat * A) := enumerate_from 0 l.

(** ** Python dicts with string keys: insertion ordered *)

Definition dict (V : Type) : Type := list (string * V).

Fixpoint dict_get {V : Type} (d : dict V) (k : string) : result V :=
  match d with
  | [] => Raise (KeyError k)
  | (k', v) :: d' => if String.eqb k' k then Ok v else dict_get d' k
  end.

(** [d[k] = v]: an existing key keeps its position, a new one goes last. *)
Fixpoint dict_set {V : Type} (d : dict V) (k : string) (v : V) : dict V :=
  match d with
  | [] => [(k, v)]
  | (k', v') :: d' =>
      if String.eqb k' k then (k', v) :: d' else (k', v') :: dict_set d' k v
  end.

Definition dict_keys {V : Type} (d : dict V) : list string := map fst d.

Definition dict_contains {V : Type} (d : dict V) (k : string) : bool :=
  existsb (String.eqb k) (dict_keys d).

(** [{value: key for key, value in d.items()}] *)
Definition dict_revert (d : dict string) : dict string :=
  fold_left (fun acc kv => dict_set acc (snd kv) (fst kv)) d [].

(** ** numpy float64 arrays *)

Definition ndarray : Type := list float.

Definition nl : string := String (ascii_of_nat 10) EmptyString.

(** The float64 nearest to a Python int (round to nearest even), as numpy
    converts an int operand of a float64 array. *)
Definition float_of_int (z : Z) : float :=
  SF2Prim (binary_normalize prec emax z 0 false).

(** [np.ones_like(a)] for a float64 array. *)
Definition ones_like (a : ndarray) : ndarray := map (fun _ => 1%float) a.

(** [c * a], [c / a], [a / c], [a * c] with a scalar [c]. *)
Definition scalar_mul (c : float) (a : ndarray) : ndarray := map (fun x => (c * x)%float) a.
Definition scalar_div (c : float) (a : ndarray) : ndarray := map (fun x => (c / x)%float) a.
Definition div_scalar (a : ndarray) (c : float) : ndarray := map (fun x => (x / c)%float) a.
Definition mul_scalar (a : ndarray) (c : float) : ndarray := map (fun x => (x * c)%float) a.

(** Element-wise operation on two arrays of one length (columns of one
    frame, or the fields of a [Statistics] built by one group-by). *)
Fixpoint zip_with (f : float -> float -> float) (a b : ndarray) : ndarray :=
  match a, b with
  | x :: a', y :: b' => f x y :: zip_with f a' b'
  | _, _ => []
  end.

(** [a[-1]]: the last element; IndexError on an empty array. *)
Fixpoint last_elem (a : ndarray) : result float :=
  match a with
  | [] => Raise IndexError
  | [x] => Ok x
  | _ :: a' => last_elem a'
  end.

(** ** pandas Series and DataFrames *)

(** A column read from a CSV file is a float64 column or a bool column. *)
Inductive Series : Type :=
| FloatSeries (v : list float)
| BoolSeries (v : list bool).

Definition float_of_bool (b : bool) : float := if b then 1%float else 0%float.

(** The values of a column as float64 (a bool column counts as 0.0 / 1.0 in
    arithmetic and reductions). *)
Definition values (s : Series) : ndarray :=
  match s with
  | FloatSeries v => v
  | BoolSeries v => map float_of_bool v
  end.

Definition series_len (s : Series) : nat :=
  match s with
  | FloatSeries v => List.length v
  | BoolSeries v => List.length v
  end.

(** [s == c] for a float scalar [c] *)
Definition series_eq (s : Series) (c : float) : list bool :=
  map (fun x => (x =? c)%float) (values s).

(** [s == True] *)
Definition series_eq_bool (s : Series) (b : bool) : list bool :=
  match s with
  | FloatSeries v => map (fun x => (x =? float_of_bool b)%float) v
  | BoolSeries v => map (Bool.eqb b) v
  end.

(** [s >= c] *)
Definition series_ge (s : Series) (c : float) : list bool :=
  map (fun x => (c <=? x)%float) (values s).

(** [m1 & m2] *)
Fixpoint mask_and (m1 m2 : list bool) : list bool :=
  match m1, m2 with
  | b1 :: m1', b2 :: m2' => (b1 && b2) :: mask_and m1' m2'
  | _, _ => []
  end.

(** The entries of [l] at the rows where the mask is True. *)
Fixpoint select {A : Type} (mask : list bool) (l : list A) : list A :=
  match mask, l with
  | b :: mask', x :: l' => if b then x :: select mask' l' else select mask' l'
  | _, _ => []
  end.

Definition series_select (mask : list bool) (s : Series) : Series :=
  match s with
  | FloatSeries v => FloatSeries (select mask v)
  | BoolSeries v => BoolSeries (select mask v)
  end.

(** A frame: its columns in order, each with its name. *)
Definition DataFrame : Type := dict Series.

(** [df[col]] *)
Definition getitem (df : DataFrame) (col : string) : result Series := dict_get df col.

(** [df[col] = s] *)
Definition setitem (df : DataFrame) (col : string) (s : Series) : DataFrame :=
  dict_set df col s.

(** [df[mask]]: a new frame with the rows where the mask is True. *)
Definition loc_mask (df : DataFrame) (mask : list bool) : DataFrame :=
  map (fun c => (fst c, series_select mask (snd c))) df.

Definition nrows (df : DataFrame) : nat :=
  match df with
  | [] => 0
  | (_, s) :: _ => series_len s
  end.

(** [a - c * b] on two columns *)
Definition sub_scaled (c : float) (a b : Series) : Series :=
  FloatSeries (zip_with (fun x y => (x - c * y)%float) (values a) (values b)).

(** The reductions of the pandas library the script calls. *)
Class Pandas : Type := {
  (** [DataFrame.mean(axis=1)] on the cells of one row *)
  row_mean : list float -> float;
  (** ['mean'] of [GroupBy.agg] on the cells of one group *)
  group_mean : list float -> float;
  (** ['std'] of [GroupBy.agg] on the cells of one group *)
  group_std : list float -> float
}.

(** ** [DataFrame.groupby(key)[col].agg(['mean', 'std']).reset_index()] *)

(** A missing key cell (NaN) belongs to no group. *)
Definition notna (x : float) : bool := (x =? x)%float.

(** The distinct keys, each at its first occurrence. *)
Fixpoint unique_keys (seen ks : list float) : list float :=
  match ks with
  | [] => []
  | k :: ks' =>
      if existsb (fun s => (s =? k)%float) seen then unique_keys seen ks'
      else k :: unique_keys (k :: seen) ks'
  end.

Fixpoint insert_key (k : float) (l : list float) : list float :=
  match l with
  | [] => [k]
  | x :: l' => if (k <=? x)%float then k :: l else x :: insert_key k l'
  end.

(** Group keys come out in ascending order. *)
Definition sort_keys (l : list float) : list float := fold_right insert_key [] l.

Definition group_keys (keys : list float) : list float :=
  sort_keys (unique_keys [] (filter notna keys)).

(** The cells of [vals] in the rows whose key equals [k]. *)
Definition group_cells (k : float) (keys vals : list float) : list float :=
  select (map (fun ki => (ki =? k)%float) keys) vals.

Section Aggregation.
Context {pandas : Pandas}.

Definition groupby_agg_mean_std (df : DataFrame) (key col : string)
  : result DataFrame :=
  k <- getitem df key ;;
  v <- getitem df col ;;
  let ks := group_keys (values k) in
  let cells g := group_cells g (values k) (values v) in
  Ok [ (key, FloatSeries ks);
       ("mean", FloatSeries (map (fun g => group_mean (cells g)) ks));
       ("std", FloatSeries (map (fun g => group_std (cells g)) ks)) ].

(** The first [n] rows of the columns [cols], each row a list of cells. *)
Fixpoint rows_of (n : nat) (cols : list ndarray) : list (list float) :=
  match n with
  | O => []
  | S n' => map (hd nan) cols :: rows_of n' (map (@tl float) cols)
  end.

(** [df[cols].mean(axis=1)] for the columns [sub] of a frame of [n] rows. *)
Definition mean_axis1 (n : nat) (sub : DataFrame) : Series :=
  FloatSeries (map row_mean (rows_of n (map (fun c => values (snd c)) sub))).
End Aggregation.

(** [df[[col for col in df.columns if col.startswith(p)]]] *)
Definition columns_startswith (p : string) (df : DataFrame) : DataFrame :=
  filter (fun c => String.prefix p (fst c)) df.

(** ** Constants of the script *)

Definition BASELINE_NAMES : dict string :=
  [ ("basline0", "Switch-Cost-CTRL");
    ("basline1", "Same Compute " ++ nl ++ " Same Real Time " ++ nl ++ " More \# measurements");
    ("basline2", "More Compute " ++ nl ++ " Same Real Time " ++ nl ++ " More \# measurements");
    ("basline3", "Same Compute " ++ nl ++ " Less Real Time " ++ nl ++ " Same \# measurements") ].

Definition LINESTYLES : dict string :=
  [ ("basline0", "solid"); ("basline1", "dashed");
    ("basline2", "dotted"); ("basline3", "dashdot") ].

Definition BASE_NUMBER_OF_STEPS : dict Z :=
  [ ("reacher", 100000%Z); ("rccar", 50000%Z); ("halfcheetah", 1000000%Z) ].

Definition COLORS : dict string :=
  [ ("basline0", "C0"); ("basline1", "C1"); ("basline2", "C2"); ("basline3", "C3") ].

Definition REVERT_BASELINE_NAMES : dict string := dict_revert BASELINE_NAMES.

(** [{BASELINE_NAMES[name]: v for name, v in d.items()}] *)
Definition from_names (d : dict string) : result (dict string) :=
  for_each d (fun kv acc => n <- dict_get BASELINE_NAMES (fst kv) ;;
                            Ok (dict_set acc n (snd kv))) [].

Definition from_ok {A : Type} (default : A) (r : result A) : A :=
  match r with
  | Ok a => a
  | Raise _ => default
  end.

Definition LINESTYLES_FROM_NAMES : dict string := from_ok [] (from_names LINESTYLES).
Definition COLORS_FROM_NAMES : dict string := from_ok [] (from_names COLORS).

Definition NUM_SAMPLES_PER_SEED : Z := 5.
Definition LINE_WIDTH : Z := 5.
Definition NUM_EVALS : nat := 10.

Definition ENV_NAME_CONVERSION : dict string :=
  [ ("reacher", "Reacher " ++ nl ++ " [Duration = 2 sec]");
    ("rccar", "RC Car " ++ nl ++ " [Duration = 4 sec]");
    ("halfcheetah", "Halfcheetah " ++ nl ++ " [Duration = 10 sec]") ].

Definition ENV_NAME_CONVERSION_REVERT : dict string := dict_revert ENV_NAME_CONVERSION.

(** ** Statistics and the three derived metrics *)

Record Statistics : Type := {
  xs : ndarray;
  ys_mean : ndarray;
  ys_std : ndarray;
  base_number_of_steps : Z
}.

(** A Python function that falls off its last [elif] returns [None]. *)
Definition compute_num_gradient_updates (baseline_name : string) (stats : Statistics)
  : result (option ndarray) :=
  if negb (dict_contains BASELINE_NAMES baseline_name) then Raise AssertionError
  else if baseline_name =? "basline0" then
    Ok (Some (scalar_mul (float_of_int (base_number_of_steps stats)) (ones_like (xs stats))))
  else if baseline_name =? "basline1" then
    Ok (Some (scalar_mul (float_of_int (base_number_of_steps stats)) (ones_like (xs stats))))
  else if baseline_name =? "basline2" then
    l <- last_elem (xs stats) ;;
    Ok (Some (scalar_div (float_of_int (base_number_of_steps stats)) (div_scalar (xs stats) l)))
  else if baseline_name =? "basline3" then
    Ok (Some (scalar_mul (float_of_int (base_number_of_steps stats)) (ones_like (xs stats))))
  else Ok None.

Definition compute_num_measurements (baseline_name : string) (stats : Statistics)
  : result (option ndarray) :=
  if negb (dict_contains BASELINE_NAMES baseline_name) then Raise AssertionError
  else if baseline_name =? "basline0" then
    Ok (Some (scalar_mul (float_of_int (base_number_of_steps stats)) (ones_like (xs stats))))
  else if baseline_name =? "basline1" then
    l <- last_elem (xs stats) ;;
    Ok (Some (scalar_div (float_of_int (base_number_of_steps stats)) (div_scalar (xs stats) l)))
  else if baseline_name =? "basline2" then
    l <- last_elem (xs stats) ;;
    Ok (Some (scalar_div (float_of_int (base_number_of_steps stats)) (div_scalar (xs stats) l)))
  else if baseline_name =? "basline3" then
    Ok (Some (scalar_mul (float_of_int (base_number_of_steps stats)) (ones_like (xs stats))))
  else Ok None.

Definition get_dt (env_name : string) : option float :=
  if env_name =? "reacher" then Some 0.02%float
  else if env_name =? "rccar" then Some 0.5%float
  else if env_name =? "halfcheetah" then Some 0.05%float
  else None.

Definition compute_physcal_time (baseline_name : string) (stats : Statistics)
  : result (option ndarray) :=
  if negb (dict_contains BASELINE_NAMES baseline_name) then Raise AssertionError
  else if baseline_name =? "basline0" then
    Ok (Some (scalar_mul (float_of_int (base_number_of_steps stats)) (ones_like (xs stats))))
  else if baseline_name =? "basline1" then
    Ok (Some (scalar_mul (float_of_int (base_number_of_steps stats)) (ones_like (xs stats))))
  else if baseline_name =? "basline2" then
    Ok (Some (scalar_mul (float_of_int (base_number_of_steps stats)) (ones_like (xs stats))))
  else if baseline_name =? "basline3" then
    l <- last_elem (xs stats) ;;
    Ok (Some (scalar_mul (float_of_int (base_number_of_steps stats)) (div_scalar (xs stats) l)))
  else Ok None.

(** ** The CSV files *)

(** The files under [data/], each parsed into a frame, by path. *)
Definition FileSystem : Type := dict DataFrame.

(** [pd.read_csv(path)] *)
Definition read_csv (fs : FileSystem) (path : string) : result DataFrame :=
  match dict_get fs path with
  | Ok df => Ok df
  | Raise _ => Raise (FileNotFoundError path)
  end.

(** [str(index)] inside an f-string *)
Definition str (n : nat) : string := NilEmpty.string_of_uint (Nat.to_uint n).

(** [range(n)] *)
Definition range (n : nat) : list nat := seq 0 n.

(** The two dicts of an environment: reward with and without switch cost. *)
Definition Baselines : Type := (dict Statistics * dict Statistics)%type.

Section Script.
Context {pandas : Pandas}.

(** The eight lines every aggregation of the script repeats:
    [g = df.groupby('new_integration_dt')[col].agg(['mean', 'std'])],
    [g = g.reset_index()] and
    [Statistics(xs=np.array(g['new_integration_dt']), ys_mean=np.array(g['mean']),
                ys_std=np.array(g['std']), base_number_of_steps=BASE_NUMBER_OF_STEPS[env])]. *)
Definition grouped_statistics (df : DataFrame) (col env : string) : result Statistics :=
  grouped_data <- groupby_agg_mean_std df "new_integration_dt" col ;;
  x <- getitem grouped_data "new_integration_dt" ;;
  m <- getitem grouped_data "mean" ;;
  s <- getitem grouped_data "std" ;;
  n <- dict_get BASE_NUMBER_OF_STEPS env ;;
  Ok {| xs := values x; ys_mean := values m; ys_std := values s;
        base_number_of_steps := n |}.

(** [df[dst] = df[a] - SWITCH_COST * df[b]] *)
Definition assign_sub_scaled (SWITCH_COST : float) (df : DataFrame) (dst a b : string)
  : result DataFrame :=
  x <- getitem df a ;;
  y <- getitem df b ;;
  Ok (setitem df dst (sub_scaled SWITCH_COST x y)).

(** [df[df[col] == True]] and [df[df[col] == False]] *)
Definition where_flag (df : DataFrame) (col : string) (b : bool) : result DataFrame :=
  c <- getitem df col ;;
  Ok (loc_mask df (series_eq_bool c b)).
End Script.

(** *** Reacher (lines 130-223) *)
Module Reacher.
Section Script.
Context {pandas : Pandas}.

(** Lines 135-144: the columns [results/total_reward] and
    [results/num_actions], each the row-wise mean of the per-evaluation
    columns of that prefix. *)
Definition mean_over_evals (cur_data : DataFrame) : DataFrame :=
  let columns_to_mean := columns_startswith "results/total_reward_" cur_data in
  let cur_data :=
    setitem cur_data "results/total_reward" (mean_axis1 (nrows cur_data) columns_to_mean) in
  let columns_to_mean := columns_startswith "results/num_actions_" cur_data in
  setitem cur_data "results/num_actions" (mean_axis1 (nrows cur_data) columns_to_mean).

(** The function mutates [cur_data] and both dicts; the frame and the
    dicts after the call are returned, the dicts in the order of the
    Python return value. *)
Definition update_baselines (SWITCH_COST : float) (cur_data : DataFrame)
    (baseline_name : string)
    (cur_baselines_reward_with_switch_cost : dict Statistics)
    (cur_baselines_reward_without_switch_cost : dict Statistics)
  : result (DataFrame * Baselines) :=
  let cur_data := mean_over_evals cur_data in
  st <- grouped_statistics cur_data "results/total_reward" "reacher" ;;
  let cur_baselines_reward_without_switch_cost :=
    dict_set cur_baselines_reward_without_switch_cost baseline_name st in
  cur_data <- assign_sub_scaled SWITCH_COST cur_data "results/reward_with_switch_cost"
                "results/total_reward" "results/num_actions" ;;
  st' <- grouped_statistics cur_data "results/reward_with_switch_cost" "reacher" ;;
  let cur_baselines_reward_with_switch_cost :=
    dict_set cur_baselines_reward_with_switch_cost baseline_name st' in
  Ok (cur_data, (cur_baselines_reward_with_switch_cost,
                 cur_baselines_reward_without_switch_cost)).

(** The body of the three [for index in range(NUM_EVALS)] loops. *)
Definition add_reward_with_switch_cost (SWITCH_COST : float) (index : nat) (df : DataFrame)
  : result DataFrame :=
  assign_sub_scaled SWITCH_COST df ("results/reward_with_switch_cost_" ++ str index)
    ("results/total_reward_" ++ str index) ("results/num_actions_" ++ str index).

(** Lines 177-197: the frames handed to [update_baselines], in the order
    basline0 .. basline3. *)
Definition frames (fs : FileSystem) (SWITCH_COST : float)
  : result (DataFrame * DataFrame * DataFrame * DataFrame) :=
  data_adaptive <- read_csv fs "data/reacher/switch_cost.csv" ;;
  c <- getitem data_adaptive "switch_cost" ;;
  let filtered_df := loc_mask data_adaptive (series_eq c SWITCH_COST) in
  filtered_df <- for_each (range NUM_EVALS) (add_reward_with_switch_cost SWITCH_COST)
                   filtered_df ;;
  data_equidistant <- read_csv fs "data/reacher/no_switch_cost.csv" ;;
  data_equidistant <- for_each (range NUM_EVALS) (add_reward_with_switch_cost SWITCH_COST)
                        data_equidistant ;;
  data_equidistant_naive <- read_csv fs "data/reacher/naive_model.csv" ;;
  (* the third loop writes into [data_equidistant] again *)
  data_equidistant <- for_each (range NUM_EVALS) (add_reward_with_switch_cost SWITCH_COST)
                        data_equidistant ;;
  data_same_gd <- where_flag data_equidistant "same_amount_of_gradient_updates" true ;;
  data_more_gd <- where_flag data_equidistant "same_amount_of_gradient_updates" false ;;
  Ok (filtered_df, data_same_gd, data_more_gd, data_equidistant_naive).

(** Lines 174-221: the two dicts of the environment after the four calls. *)
Definition baselines (fs : FileSystem) (SWITCH_COST : float) : result Baselines :=
  let baselines_reward_without_switch_cost : dict Statistics := [] in
  let baselines_reward_with_switch_cost : dict Statistics := [] in
  '(filtered_df, data_same_gd, data_more_gd, data_equidistant_naive) <-
    frames fs SWITCH_COST ;;
  n <- dict_get BASELINE_NAMES "basline0" ;;
  '(_, (baselines_reward_with_switch_cost, baselines_reward_without_switch_cost)) <-
    update_baselines SWITCH_COST filtered_df n
      baselines_reward_with_switch_cost baselines_reward_without_switch_cost ;;
  n <- dict_get BASELINE_NAMES "basline1" ;;
  '(_, (baselines_reward_with_switch_cost, baselines_reward_without_switch_cost)) <-
    update_baselines SWITCH_COST data_same_gd n
      baselines_reward_with_switch_cost baselines_reward_without_switch_cost ;;
  n <- dict_get BASELINE_NAMES "basline2" ;;
  '(_, (baselines_reward_with_switch_cost, baselines_reward_without_switch_cost)) <-
    update_baselines SWITCH_COST data_more_gd n
      baselines_reward_with_switch_cost baselines_reward_without_switch_cost ;;
  n <- dict_get BASELINE_NAMES "basline3" ;;
  '(_, (baselines_reward_with_switch_cost, baselines_reward_without_switch_cost)) <-
    update_baselines SWITCH_COST data_equidistant_naive n
      baselines_reward_with_switch_cost baselines_reward_without_switch_cost ;;
  Ok (baselines_reward_with_switch_cost, baselines_reward_without_switch_cost).
End Script.
End Reacher.

(** *** RC car (lines 229-304) *)
Module RCCar.
Section Script.
Context {pandas : Pandas}.

Definition update_baselines (SWITCH_COST : float) (cur_data : DataFrame)
    (baseline_name : string)
    (cur_baselines_reward_with_switch_cost : dict Statistics)
    (cur_baselines_reward_without_switch_cost : dict Statistics)
  : result (DataFrame * Baselines) :=
  st <- grouped_statistics cur_data "results/total_reward" "rccar" ;;
  let cur_baselines_reward_without_switch_cost :=
    dict_set cur_baselines_reward_without_switch_cost baseline_name st in
  cur_data <- assign_sub_scaled SWITCH_COST cur_data "results/reward_with_switch_cost"
                "results/total_reward" "results/num_actions" ;;
  st' <- grouped_statistics cur_data "results/reward_with_switch_cost" "rccar" ;;
  let cur_baselines_reward_with_switch_cost :=
    dict_set cur_baselines_reward_with_switch_cost baseline_name st' in
  Ok (cur_data, (cur_baselines_reward_with_switch_cost,
                 cur_baselines_reward_without_switch_cost)).

(** Lines 261-278 *)
Definition frames (fs : FileSystem) (SWITCH_COST MAX_TIME_BETWEEN_SWITCHES : float)
  : result (DataFrame * DataFrame * DataFrame * DataFrame) :=
  data_adaptive <- read_csv fs "data/rccar/switch_cost.csv" ;;
  c <- getitem data_adaptive "switch_cost" ;;
  t <- getitem data_adaptive "max_time_between_switches" ;;
  let filtered_df :=
    loc_mask data_adaptive
      (mask_and (series_eq c SWITCH_COST) (series_eq t MAX_TIME_BETWEEN_SWITCHES)) in
  filtered_df <- assign_sub_scaled SWITCH_COST filtered_df "results/reward_with_switch_cost"
                   "results/total_reward" "results/num_actions" ;;
  data_equidistant <- read_csv fs "data/rccar/no_switch_cost.csv" ;;
  data_equidistant <- assign_sub_scaled SWITCH_COST data_equidistant
                        "results/reward_with_switch_cost"
                        "results/total_reward" "results/num_actions" ;;
  data_same_gd <- where_flag data_equidistant "same_amount_of_gradient_updates" true ;;
  data_more_gd <- where_flag data_equidistant "same_amount_of_gradient_updates" false ;;
  data_naive <- read_csv fs "data/rccar/naive_model.csv" ;;
  r0 <- getitem data_naive "results/total_reward_0" ;;
  let data_naive := setitem data_naive "results/total_reward" r0 in
  a0 <- getitem data_naive "results/num_actions_0" ;;
  let data_naive := setitem data_naive "results/num_actions" a0 in
  data_naive <- assign_sub_scaled SWITCH_COST data_naive "results/reward_with_switch_cost"
                  "results/total_reward_0" "results/num_actions_0" ;;
  Ok (filtered_df, data_same_gd, data_more_gd, data_naive).

(** Lines 258-302 *)
Definition baselines (fs : FileSystem) (SWITCH_COST MAX_TIME_BETWEEN_SWITCHES : float)
  : result Baselines :=
  let baselines_reward_without_switch_cost : dict Statistics := [] in
  let baselines_reward_with_switch_cost : dict Statistics := [] in
  '(filtered_df, data_same_gd, data_more_gd, data_naive) <-
    frames fs SWITCH_COST MAX_TIME_BETWEEN_SWITCHES ;;
  n <- dict_get BASELINE_NAMES "basline0" ;;
  '(_, (baselines_reward_with_switch_cost, baselines_reward_without_switch_cost)) <-
    update_baselines SWITCH_COST filtered_df n
      baselines_reward_with_switch_cost baselines_reward_without_switch_cost ;;
  n <- dict_get BASELINE_NAMES "basline1" ;;
  '(_, (baselines_reward_with_switch_cost, baselines_reward_without_switch_cost)) <-
    update_baselines SWITCH_COST data_same_gd n
      baselines_reward_with_switch_cost baselines_reward_without_switch_cost ;;
  n <- dict_get BASELINE_NAMES "basline2" ;;
  '(_, (baselines_reward_with_switch_cost, baselines_reward_without_switch_cost)) <-
    update_baselines SWITCH_COST data_more_gd n
      baselines_reward_with_switch_cost baselines_reward_without_switch_cost ;;
  n <- dict_get BASELINE_NAMES "basline3" ;;
  '(_, (baselines_reward_with_switch_cost, baselines_reward_without_switch_cost)) <-
    update_baselines SWITCH_COST data_naive n
      baselines_reward_with_switch_cost baselines_reward_without_switch_cost ;;
  Ok (baselines_reward_with_switch_cost, baselines_reward_without_switch_cost).
End Script.
End RCCar.

(** *** Halfcheetah (lines 309-442) *)
Module Halfcheetah.
Section Script.
Context {pandas : Pandas}.

(** Lines 402-428 *)
Definition update_baselines (SWITCH_COST : float) (cur_data : DataFrame)
    (baseline_name : string)
    (cur_baselines_reward_with_switch_cost : dict Statistics)
    (cur_baselines_reward_without_switch_cost : dict Statistics)
  : result (DataFrame * Baselines) :=
  st <- grouped_statistics cur_data "results/total_reward" "halfcheetah" ;;
  let cur_baselines_reward_without_switch_cost :=
    dict_set cur_baselines_reward_without_switch_cost baseline_name st in
  cur_data <- assign_sub_scaled SWITCH_COST cur_data "results/reward_with_switch_cost"
                "results/total_reward" "results/num_actions" ;;
  st' <- grouped_statistics cur_data "results/reward_with_switch_cost" "halfcheetah" ;;
  let cur_baselines_reward_with_switch_cost :=
    dict_set cur_baselines_reward_with_switch_cost baseline_name st' in
  Ok (cur_data, (cur_baselines_reward_with_switch_cost,
                 cur_baselines_reward_without_switch_cost)).

(** Lines 315-316: [data] *)
Definition equidistant (fs : FileSystem) : result DataFrame :=
  data <- read_csv fs "data/halfcheetah/equidistant.csv" ;;
  k <- getitem data "new_integration_dt" ;;
  Ok (loc_mask data (series_ge k (0.05 / 30)%float)).

(** Lines 317-322: [filtered_df] *)
Definition adaptive (fs : FileSystem) (SWITCH_COST MAX_TIME_BETWEEN_SWITCHES : float)
  : result DataFrame :=
  data_adaptive <- read_csv fs "data/halfcheetah/adaptive.csv" ;;
  c <- getitem data_adaptive "switch_cost" ;;
  t <- getitem data_adaptive "max_time_between_switches" ;;
  s <- getitem data_adaptive "time_as_part_of_state" ;;
  let filtered_df :=
    loc_mask data_adaptive
      (mask_and (mask_and (series_eq c SWITCH_COST) (series_eq t MAX_TIME_BETWEEN_SWITCHES))
                (series_eq_bool s true)) in
  assign_sub_scaled SWITCH_COST filtered_df "results/reward_with_switch_cost"
    "results/total_reward" "results/num_actions".

(** Lines 326-345: basline0, from [filtered_df] *)
Definition basline0_block (filtered_df : DataFrame) (b : Baselines) : result Baselines :=
  let '(baselines_reward_with_switch_cost, baselines_reward_without_switch_cost) := b in
  st <- grouped_statistics filtered_df "results/total_reward" "halfcheetah" ;;
  n <- dict_get BASELINE_NAMES "basline0" ;;
  let baselines_reward_without_switch_cost :=
    dict_set baselines_reward_without_switch_cost n st in
  st' <- grouped_statistics filtered_df "results/reward_with_switch_cost" "halfcheetah" ;;
  n <- dict_get BASELINE_NAMES "basline0" ;;
  let baselines_reward_with_switch_cost :=
    dict_set baselines_reward_with_switch_cost n st' in
  Ok (baselines_reward_with_switch_cost, baselines_reward_without_switch_cost).

(** Lines 350-372: basline3, from [data]; the penalty column is
    [results/total_steps]. *)
Definition basline3_block (SWITCH_COST : float) (data : DataFrame) (b : Baselines)
  : result (DataFrame * Baselines) :=
  let '(baselines_reward_with_switch_cost, baselines_reward_without_switch_cost) := b in
  st <- grouped_statistics data "results/total_reward" "halfcheetah" ;;
  n <- dict_get BASELINE_NAMES "basline3" ;;
  let baselines_reward_without_switch_cost :=
    dict_set baselines_reward_without_switch_cost n st in
  data <- assign_sub_scaled SWITCH_COST data "results/reward_with_switch_cost"
            "results/total_reward" "results/total_steps" ;;
  st' <- grouped_statistics data "results/reward_with_switch_cost" "halfcheetah" ;;
  n <- dict_get BASELINE_NAMES "basline3" ;;
  let baselines_reward_with_switch_cost :=
    dict_set baselines_reward_with_switch_cost n st' in
  Ok (data, (baselines_reward_with_switch_cost, baselines_reward_without_switch_cost)).

(** Lines 376-377 and 432-433: [data] read again from no_switch_cost.csv *)
Definition no_switch_cost (fs : FileSystem) (same_amount_of_gradient_updates : bool)
  : result DataFrame :=
  data <- read_csv fs "data/halfcheetah/no_switch_cost.csv" ;;
  where_flag data "same_amount_of_gradient_updates" same_amount_of_gradient_updates.

(** Lines 379-399: basline2 *)
Definition basline2_block (SWITCH_COST : float) (data : DataFrame) (b : Baselines)
  : result (DataFrame * Baselines) :=
  let '(baselines_reward_with_switch_cost, baselines_reward_without_switch_cost) := b in
  st <- grouped_statistics data "results/total_reward" "halfcheetah" ;;
  n <- dict_get BASELINE_NAMES "basline2" ;;
  let baselines_reward_without_switch_cost :=
    dict_set baselines_reward_without_switch_cost n st in
  data <- assign_sub_scaled SWITCH_COST data "results/reward_with_switch_cost"
            "results/total_reward" "results/num_actions" ;;
  st' <- grouped_statistics data "results/reward_with_switch_cost" "halfcheetah" ;;
  n <- dict_get BASELINE_NAMES "basline2" ;;
  let baselines_reward_with_switch_cost :=
    dict_set baselines_reward_with_switch_cost n st' in
  Ok (data, (baselines_reward_with_switch_cost, baselines_reward_without_switch_cost)).

(** Lines 312-440 *)
Definition baselines (fs : FileSystem) (SWITCH_COST MAX_TIME_BETWEEN_SWITCHES : float)
  : result Baselines :=
  let baselines_reward_without_switch_cost : dict Statistics := [] in
  let baselines_reward_with_switch_cost : dict Statistics := [] in
  data <- equidistant fs ;;
  filtered_df <- adaptive fs SWITCH_COST MAX_TIME_BETWEEN_SWITCHES ;;
  b <- basline0_block filtered_df
         (baselines_reward_with_switch_cost, baselines_reward_without_switch_cost) ;;
  '(_, b) <- basline3_block SWITCH_COST data b ;;
  data <- no_switch_cost fs false ;;
  '(_, b) <- basline2_block SWITCH_COST data b ;;
  data <- no_switch_cost fs true ;;
  n <- dict_get BASELINE_NAMES "basline1" ;;
  '(_, b) <- update_baselines SWITCH_COST data n (fst b) (snd b) ;;
  Ok b.
End Script.
End Halfcheetah.

(** ** The figure: the calls made on each of the axes *)

Record Line : Type := {
  line_x : ndarray;
  line_y : ndarray;
  line_label : string;
  line_linewidth : Z;
  line_linestyle : string;
  line_color : string
}.

Record Band : Type := {
  band_x : ndarray;
  band_y1 : ndarray;
  band_y2 : ndarray;
  band_color : string;
  band_alpha : float
}.

Record Axes : Type := {
  ax_lines : list Line;
  ax_bands : list Band;
  ax_xscale : string;
  ax_yscale : string;
  ax_title : option string;
  ax_xlabel : option string;
  ax_ylabel : option string
}.

(** Fresh axes have linear scales and no labels. *)
Definition new_axes : Axes :=
  {| ax_lines := []; ax_bands := []; ax_xscale := "linear"; ax_yscale := "linear";
     ax_title := None; ax_xlabel := None; ax_ylabel := None |}.

Definition plot (l : Line) (a : Axes) : Axes :=
  {| ax_lines := ax_lines a ++ [l]; ax_bands := ax_bands a; ax_xscale := ax_xscale a;
     ax_yscale := ax_yscale a; ax_title := ax_title a; ax_xlabel := ax_xlabel a;
     ax_ylabel := ax_ylabel a |}.

Definition fill_between (b : Band) (a : Axes) : Axes :=
  {| ax_lines := ax_lines a; ax_bands := ax_bands a ++ [b]; ax_xscale := ax_xscale a;
     ax_yscale := ax_yscale a; ax_title := ax_title a; ax_xlabel := ax_xlabel a;
     ax_ylabel := ax_ylabel a |}.

Definition set_xscale (s : string) (a : Axes) : Axes :=
  {| ax_lines := ax_lines a; ax_bands := ax_bands a; ax_xscale := s;
     ax_yscale := ax_yscale a; ax_title := ax_title a; ax_xlabel := ax_xlabel a;
     ax_ylabel := ax_ylabel a |}.

Definition set_yscale (s : string) (a : Axes) : Axes :=
  {| ax_lines := ax_lines a; ax_bands := ax_bands a; ax_xscale := ax_xscale a;
     ax_yscale := s; ax_title := ax_title a; ax_xlabel := ax_xlabel a;
     ax_ylabel := ax_ylabel a |}.

Definition set_title (s : string) (a : Axes) : Axes :=
  {| ax_lines := ax_lines a; ax_bands := ax_bands a; ax_xscale := ax_xscale a;
     ax_yscale := ax_yscale a; ax_title := Some s; ax_xlabel := ax_xlabel a;
     ax_ylabel := ax_ylabel a |}.

Definition set_xlabel (s : string) (a : Axes) : Axes :=
  {| ax_lines := ax_lines a; ax_bands := ax_bands a; ax_xscale := ax_xscale a;
     ax_yscale := ax_yscale a; ax_title := ax_title a; ax_xlabel := Some s;
     ax_ylabel := ax_ylabel a |}.

Definition set_ylabel (s : string) (a : Axes) : Axes :=
  {| ax_lines := ax_lines a; ax_bands := ax_bands a; ax_xscale := ax_xscale a;
     ax_yscale := ax_yscale a; ax_title := ax_title a; ax_xlabel := ax_xlabel a;
     ax_ylabel := Some s |}.

(** The grid [ax] of [plt.subplots]: rows of axes. *)
Definition Grid : Type := list (list Axes).

(** [plt.subplots(nrows, ncols)] *)
Definition subplots (nrows ncols : nat) : Grid := repeat (repeat new_axes ncols) nrows.

(** [ax[r, c]] *)
Definition ax_at (ax : Grid) (r c : nat) : result Axes :=
  match nth_error ax r with
  | Some row => match nth_error row c with
                | Some a => Ok a
                | None => Raise IndexError
                end
  | None => Raise IndexError
  end.

Fixpoint replace_nth {A : Type} (n : nat) (x : A) (l : list A) : list A :=
  match l, n with
  | [], _ => []
  | _ :: l', O => x :: l'
  | y :: l', S n' => y :: replace_nth n' x l'
  end.

(** A call of a method of [ax[r, c]] that changes these axes. *)
Definition on_axes (ax : Grid) (r c : nat) (method : Axes -> Axes) : result Grid :=
  a <- ax_at ax r c ;;
  Ok (replace_nth r (replace_nth c (method a) (nth r ax [])) ax).

(** A call of a method of [ax[r, c]] whose arguments can raise: the axes are
    looked up first, then the arguments are evaluated. *)
Definition call_on (ax : Grid) (r c : nat) (method : Axes -> result Axes) : result Grid :=
  a <- ax_at ax r c ;;
  a' <- method a ;;
  Ok (replace_nth r (replace_nth c a' (nth r ax [])) ax).

(** [ax[r, index].plot(1 / baseline_stat.xs, y, label=baseline_name,
     linewidth=LINE_WIDTH, linestyle=LINESTYLES_FROM_NAMES[baseline_name],
     color=COLORS_FROM_NAMES[baseline_name])]; matplotlib refuses [y = None]
    with a ValueError. *)
Definition plot_curve (baseline_name : string) (baseline_stat : Statistics)
    (y : result (option ndarray)) (a : Axes) : result Axes :=
  let x := scalar_div 1 (xs baseline_stat) in
  y <- y ;;
  ls <- dict_get LINESTYLES_FROM_NAMES baseline_name ;;
  c <- dict_get COLORS_FROM_NAMES baseline_name ;;
  match y with
  | Some y =>
      Ok (plot {| line_x := x; line_y := y; line_label := baseline_name;
                  line_linewidth := LINE_WIDTH; line_linestyle := ls;
                  line_color := c |} a)
  | None => Raise ValueError
  end.

Definition systems_t : Type := dict (dict Statistics).

(** Lines 450-465: one turn of the loop of the reward row *)
Definition reward_turn (turn : nat * (string * dict Statistics)) (ax : Grid) : result Grid :=
  let '(index, (title, baselines)) := turn in
  ax <- for_each baselines (fun '(baseline_name, baseline_stat) ax =>
    ax <- call_on ax 0 index
            (plot_curve baseline_name baseline_stat (Ok (Some (ys_mean baseline_stat)))) ;;
    call_on ax 0 index (fun a =>
      let x := scalar_div 1 (xs baseline_stat) in
      let err := div_scalar (ys_std baseline_stat)
                   (sqrt (float_of_int NUM_SAMPLES_PER_SEED)) in
      let y1 := zip_with PrimFloat.sub (ys_mean baseline_stat) err in
      let y2 := zip_with PrimFloat.add (ys_mean baseline_stat) err in
      c <- dict_get COLORS_FROM_NAMES baseline_name ;;
      Ok (fill_between {| band_x := x; band_y1 := y1; band_y2 := y2;
                          band_color := c; band_alpha := 0.2%float |} a))) ax ;;
  ax <- on_axes ax 0 index (set_xscale "log") ;;
  ax <- on_axes ax 0 index (set_title title) ;;
  if Nat.eqb index 0
  then on_axes ax 0 index (set_ylabel "Reward [Without $c(\vx, \vu, t)$]")
  else Ok ax.

(** Lines 449-465: the reward row *)
Definition reward_row (systems : systems_t) (ax : Grid) : result Grid :=
  for_each (enumerate systems) reward_turn ax.

(** Lines 468-481: one turn of the loop of the sample-count row; the
    metric is computed once for [print] and once for the curve. *)
Definition samples_turn (turn : nat * (string * dict Statistics)) (ax : Grid) : result Grid :=
  let '(index, (title, baselines)) := turn in
  ax <- for_each baselines (fun '(baseline_name, baseline_stat) ax =>
    k <- dict_get REVERT_BASELINE_NAMES baseline_name ;;
    _ <- compute_num_measurements k baseline_stat ;;
    call_on ax 1 index (fun a =>
      k <- dict_get REVERT_BASELINE_NAMES baseline_name ;;
      plot_curve baseline_name baseline_stat
        (compute_num_measurements k baseline_stat) a)) ax ;;
  ax <- on_axes ax 1 index (set_xscale "log") ;;
  ax <- on_axes ax 1 index (set_yscale "log") ;;
  if Nat.eqb index 0
  then on_axes ax 1 index (set_ylabel "\# Samples")
  else Ok ax.

(** Lines 467-481: the sample-count row *)
Definition samples_row (systems : systems_t) (ax : Grid) : result Grid :=
  for_each (enumerate systems) samples_turn ax.

(** Lines 484-495: one turn of the loop of the compute row *)
Definition compute_turn (turn : nat * (string * dict Statistics)) (ax : Grid) : result Grid :=
  let '(index, (title, baselines)) := turn in
  ax <- for_each baselines (fun '(baseline_name, baseline_stat) ax =>
    call_on ax 2 index (fun a =>
      k <- dict_get REVERT_BASELINE_NAMES baseline_name ;;
      plot_curve baseline_name baseline_stat
        (compute_num_gradient_updates k baseline_stat) a)) ax ;;
  ax <- on_axes ax 2 index (set_xscale "log") ;;
  ax <- on_axes ax 2 index (set_yscale "log") ;;
  if Nat.eqb index 0
  then on_axes ax 2 index (set_ylabel "Computation")
  else Ok ax.

(** Lines 483-495: the compute row *)
Definition compute_row (systems : systems_t) (ax : Grid) : result Grid :=
  for_each (enumerate systems) compute_turn ax.

(** [compute_physcal_time(k, stat) * get_dt(ENV_NAME_CONVERSION_REVERT[title])]:
    a TypeError when either function returned [None]. *)
Definition physical_time_seconds (k title : string) (stat : Statistics)
  : result (option ndarray) :=
  y <- compute_physcal_time k stat ;;
  env <- dict_get ENV_NAME_CONVERSION_REVERT title ;;
  match y, get_dt env with
  | Some y, Some dt => Ok (Some (mul_scalar y dt))
  | _, _ => Raise TypeError
  end.

(** Lines 498-511: one turn of the loop of the physical-time row *)
Definition physical_time_turn (turn : nat * (string * dict Statistics)) (ax : Grid) : result Grid :=
  let '(index, (title, baselines)) := turn in
  ax <- for_each baselines (fun '(baseline_name, baseline_stat) ax =>
    call_on ax 3 index (fun a =>
      k <- dict_get REVERT_BASELINE_NAMES baseline_name ;;
      plot_curve baseline_name baseline_stat
        (physical_time_seconds k title baseline_stat) a)) ax ;;
  ax <- on_axes ax 3 index (set_xscale "log") ;;
  ax <- on_axes ax 3 index (set_yscale "log") ;;
  ax <- on_axes ax 3 index (set_xlabel "Frequency") ;;
  if Nat.eqb index 0
  then on_axes ax 3 index (set_ylabel "Physical Time [sec]")
  else Ok ax.

(** Lines 497-511: the physical-time row *)
Definition physical_time_row (systems : systems_t) (ax : Grid) : result Grid :=
  for_each (enumerate systems) physical_time_turn ax.

(** Lines 513-519: [by_label], one handle per label over all axes. *)
Definition by_label (ax : Grid) : dict Line :=
  fold_left (fun acc l => dict_set acc (line_label l) l)
    (flat_map ax_lines (List.concat ax)) [].

Record Figure : Type := {
  fig_axes : Grid;
  fig_legend : dict Line
}.

(** Lines 447-530: the figure drawn from [systems]. *)
Definition draw (systems : systems_t) : result Figure :=
  let ax := subplots 4 3 in
  ax <- reward_row systems ax ;;
  ax <- samples_row systems ax ;;
  ax <- compute_row systems ax ;;
  ax <- physical_time_row systems ax ;;
  Ok {| fig_axes := ax; fig_legend := by_label ax |}.

(** ** The script from its first line to [plt.savefig] *)

Section Main.
Context {pandas : Pandas}.

Definition main (fs : FileSystem) : result (systems_t * Figure) :=
  let systems : systems_t := [] in
  let SWITCH_COST := 0.1%float in
  let MAX_TIME_BETWEEN_SWITCHES := 0.5%float in
  '(_, baselines_reward_without_switch_cost) <- Reacher.baselines fs SWITCH_COST ;;
  let systems :=
    dict_set systems ("Reacher " ++ nl ++ " [Duration = 2 sec]")
      baselines_reward_without_switch_cost in
  '(_, baselines_reward_without_switch_cost) <-
    RCCar.baselines fs SWITCH_COST MAX_TIME_BETWEEN_SWITCHES ;;
  let systems :=
    dict_set systems ("RC Car " ++ nl ++ " [Duration = 4 sec]")
      baselines_reward_without_switch_cost in
  let SWITCH_COST := 2%float in
  let MAX_TIME_BETWEEN_SWITCHES := 0.05%float in
  '(_, baselines_reward_without_switch_cost) <-
    Halfcheetah.baselines fs SWITCH_COST MAX_TIME_BETWEEN_SWITCHES ;;
  let systems :=
    dict_set systems ("Halfcheetah " ++ nl ++ " [Duration = 10 sec]")
      baselines_reward_without_switch_cost in
  fig <- draw systems ;;
  Ok (systems, fig).
End Main.

(** ** Reference reductions, for running the script on concrete frames

    The documented meaning of the pandas reductions: missing cells (NaN)
    are skipped, the mean of no cell is NaN, and the standard deviation is
    the sample one (one degree of freedom less), NaN below two cells. *)

Definition fsum (l : list float) : float := fold_left PrimFloat.add l 0%float.

Definition count (l : list float) : float := float_of_int (Z.of_nat (List.length l)).

Definition nanmean (l : list float) : float :=
  let l := filter notna l in
  (fsum l / count l)%float.

Definition nanstd (l : list float) : float :=
  let l := filter notna l in
  let m := (fsum l / count l)%float in
  if Nat.ltb (List.length l) 2 then nan
  else sqrt (fsum (map (fun x => ((x - m) * (x - m))%float) l) / (count l - 1))%float.

Definition reference_pandas : Pandas :=
  {| row_mean := nanmean; group_mean := nanmean; group_std := nanstd |}.

(** ** Statements about the script *)

(** The three definitions of [update_baselines], by environment. *)
Inductive env : Type := reacher | rccar | halfcheetah.

Definition update_baselines_of {pandas : Pandas} (e : env) :=
  match e with
  | reacher => Reacher.update_baselines
  | rccar => RCCar.update_baselines
  | halfcheetah => Halfcheetah.update_baselines
  end.

(** The three derived metrics. *)
Inductive metric : Type := gradient_updates | measurements | physical_time.

Definition compute (m : metric) : string -> Statistics -> result (option ndarray) :=
  match m with
  | gradient_updates => compute_num_gradient_updates
  | measurements => compute_num_measurements
  | physical_time => compute_physcal_time
  end.

Definition baseline_keys : list string := ["basline0"; "basline1"; "basline2"; "basline3"].

(** The array [c, c, ..., c] of the shape of [a]. *)
Definition constant_like (c : float) (a : ndarray) : ndarray := map (fun _ => c) a.

(** [st] with another [base_number_of_steps]. *)
Definition with_base (n : Z) (st : Statistics) : Statistics :=
  {| xs := xs st; ys_mean := ys_mean st; ys_std := ys_std st;
     base_number_of_steps := n |}.

(** The Statistics of a group-by: one entry per group key, with the mean
    and the standard deviation of the cells of that group. *)
Definition group_statistics {pandas : Pandas} (keys vals : ndarray) (n : Z) : Statistics :=
  let ks := group_keys keys in
  {| xs := ks;
     ys_mean := map (fun g => group_mean (group_cells g keys vals)) ks;
     ys_std := map (fun g => group_std (group_cells g keys vals)) ks;
     base_number_of_steps := n |}.

(** Keys no two of which compare equal. *)
Inductive distinct : list float -> Prop :=
| distinct_nil : distinct []
| distinct_cons (x : float) (l : list float) :
    (forall y, In y l -> (x =? y)%float = false) -> distinct l -> distinct (x :: l).

(** [x] holds the distinct values of the key column [keys]: no repeats,
    only values of the column, and every value of the column that is not
    missing. *)
Definition distinct_values_of (keys x : ndarray) : Prop :=
  distinct x /\
  (forall v, In v x -> In v keys /\ notna v = true) /\
  (forall k, In k keys -> notna k = true -> exists v, In v x /\ (v =? k)%float = true).

(** [st] is the per-group mean and standard deviation of the column [vals]
    grouped by the column [keys]: at every index the three arrays speak of
    one group. *)
Definition aggregates {pandas : Pandas} (st : Statistics) (keys vals : ndarray) : Prop :=
  distinct_values_of keys (xs st) /\
  List.length (ys_mean st) = List.length (xs st) /\
  List.length (ys_std st) = List.length (xs st) /\
  forall i, i < List.length (xs st) ->
    nth i (ys_mean st) nan = group_mean (group_cells (nth i (xs st) nan) keys vals) /\
    nth i (ys_std st) nan = group_std (group_cells (nth i (xs st) nan) keys vals).

(** The frame an [update_baselines] aggregates: reacher's first computes
    the two mean columns. *)
Definition frame_of {pandas : Pandas} (e : env) (cur_data : DataFrame) : DataFrame :=
  match e with
  | reacher => Reacher.mean_over_evals cur_data
  | _ => cur_data
  end.

Definition env_name (e : env) : string :=
  match e with
  | reacher => "reacher"
  | rccar => "rccar"
  | halfcheetah => "halfcheetah"
  end.

(** [a - c * b], element by element *)
Definition penalised (c : float) (a b : ndarray) : ndarray :=
  zip_with (fun x y => (x - c * y)%float) a b.

(** The display name of a baseline key. *)
Definition display (key : string) : string := from_ok "" (dict_get BASELINE_NAMES key).

(** The Statistics stored in [w] for the baseline [key] are the per-group
    mean and standard deviation, grouped by [new_integration_dt], of
    [results/total_reward - SWITCH_COST * penalty] over the rows of [df]. *)
Definition stored_with_switch_cost {pandas : Pandas} (SWITCH_COST : float)
    (df : DataFrame) (penalty : string) (w : dict Statistics) (key : string) : Prop :=
  exists st k r a,
    dict_get w (display key) = Ok st /\
    getitem df "new_integration_dt" = Ok k /\
    getitem df "results/total_reward" = Ok r /\
    getitem df penalty = Ok a /\
    aggregates st (values k) (penalised SWITCH_COST (values r) (values a)).

(** The four calls of [update_baselines] that end the reacher and the
    rccar part of the script. *)
Definition four_calls {pandas : Pandas} (e : env) (SWITCH_COST : float)
    (f0 f1 f2 f3 : DataFrame) : result Baselines :=
  '(_, (w, wo)) <- update_baselines_of e SWITCH_COST f0 (display "basline0") [] [] ;;
  '(_, (w, wo)) <- update_baselines_of e SWITCH_COST f1 (display "basline1") w wo ;;
  '(_, (w, wo)) <- update_baselines_of e SWITCH_COST f2 (display "basline2") w wo ;;
  '(_, (w, wo)) <- update_baselines_of e SWITCH_COST f3 (display "basline3") w wo ;;
  Ok (w, wo).

(** The aggregation every part of the script performs on a frame: the
    Statistics of [results/total_reward], then the column
    [results/reward_with_switch_cost] and its Statistics. *)
Definition aggregate_block {pandas : Pandas} (env penalty : string) (SWITCH_COST : float)
    (df : DataFrame) (name : string) (w wo : dict Statistics)
  : result (DataFrame * Baselines) :=
  st <- grouped_statistics df "results/total_reward" env ;;
  cur <- assign_sub_scaled SWITCH_COST df "results/reward_with_switch_cost"
           "results/total_reward" penalty ;;
  st' <- grouped_statistics cur "results/reward_with_switch_cost" env ;;
  Ok (cur, (dict_set w name st', dict_set wo name st)).

(** The Statistics one aggregation stores, with and without switch cost,
    in terms of the frame it aggregates. *)
Definition stored_by_block {pandas : Pandas} (env penalty : string) (SWITCH_COST : float)
    (df : DataFrame) (st' st : Statistics) : Prop :=
  exists k r a n,
    getitem df "new_integration_dt" = Ok k /\
    getitem df "results/total_reward" = Ok r /\
    getitem df penalty = Ok a /\
    dict_get BASE_NUMBER_OF_STEPS env = Ok n /\
    st = group_statistics (values k) (values r) n /\
    st' = group_statistics (values k) (penalised SWITCH_COST (values r) (values a)) n.

Definition stored_by_call {pandas : Pandas} (e : env) (SWITCH_COST : float)
    (f : DataFrame) (st' st : Statistics) : Prop :=
  stored_by_block (env_name e) "results/num_actions" SWITCH_COST (frame_of e f) st' st.

(** The frame [df] holds the rows of [csv] at which [mask] is True, and
    only those: column by column, the cells of the selected rows in order.
    The columns the script derives afterwards (their names start with
    [results/reward_with_switch_cost]) are left out. *)
Definition rows_selected (csv : DataFrame) (mask : list bool) (df : DataFrame) : Prop :=
  forall col, String.prefix "results/reward_with_switch_cost" col = false ->
    getitem df col = (s <- getitem csv col ;; Ok (series_select mask s)).

(** The threshold on the time step of halfcheetah's equidistant runs. *)
Definition dt_threshold : float := (0.05 / 30)%float.

(** *** The figure, one pair of axes at a time

    The four plotting loops visit the axes [ax[r, index]] one after the
    other; what they do to one pair of axes is a function of these axes
    alone. *)

(** The y values of the curve of one baseline in row [r]: reward, sample
    count, compute, physical time. *)
Definition row_metric (r : nat) (title baseline_name : string) (baseline_stat : Statistics)
  : result (option ndarray) :=
  match r with
  | 0 => Ok (Some (ys_mean baseline_stat))
  | 1 => k <- dict_get REVERT_BASELINE_NAMES baseline_name ;;
         compute_num_measurements k baseline_stat
  | 2 => k <- dict_get REVERT_BASELINE_NAMES baseline_name ;;
         compute_num_gradient_updates k baseline_stat
  | _ => k <- dict_get REVERT_BASELINE_NAMES baseline_name ;;
         physical_time_seconds k title baseline_stat
  end.

(** The body of the inner loop of row [r], on the axes it draws on. *)
Definition cell_step (r : nat) (title : string) (b : string * Statistics) (a : Axes)
  : result Axes :=
  let '(baseline_name, baseline_stat) := b in
  match r with
  | 0 =>
      a <- plot_curve baseline_name baseline_stat (Ok (Some (ys_mean baseline_stat))) a ;;
      let x := scalar_div 1 (xs baseline_stat) in
      let err := div_scalar (ys_std baseline_stat)
                   (sqrt (float_of_int NUM_SAMPLES_PER_SEED)) in
      let y1 := zip_with PrimFloat.sub (ys_mean baseline_stat) err in
      let y2 := zip_with PrimFloat.add (ys_mean baseline_stat) err in
      c <- dict_get COLORS_FROM_NAMES baseline_name ;;
      Ok (fill_between {| band_x := x; band_y1 := y1; band_y2 := y2;
                          band_color := c; band_alpha := 0.2%float |} a)
  | 1 =>
      k <- dict_get REVERT_BASELINE_NAMES baseline_name ;;
      _ <- compute_num_measurements k baseline_stat ;;
      plot_curve baseline_name baseline_stat (row_metric 1 title baseline_name baseline_stat) a
  | _ =>
      plot_curve baseline_name baseline_stat (row_metric r title baseline_name baseline_stat) a
  end.

(** The calls that follow the inner loop of row [r]. *)
Definition cell_finish (r index : nat) (title : string) (a : Axes) : Axes :=
  match r with
  | 0 =>
      let a := set_title title (set_xscale "log" a) in
      if Nat.eqb index 0 then set_ylabel "Reward [Without $c(\vx, \vu, t)$]" a else a
  | 1 =>
      let a := set_yscale "log" (set_xscale "log" a) in
      if Nat.eqb index 0 then set_ylabel "\# Samples" a else a
  | 2 =>
      let a := set_yscale "log" (set_xscale "log" a) in
      if Nat.eqb index 0 then set_ylabel "Computation" a else a
  | _ =>
      let a := set_xlabel "Frequency" (set_yscale "log" (set_xscale "log" a)) in
      if Nat.eqb index 0 then set_ylabel "Physical Time [sec]" a else a
  end.

(** Everything row [r] does to the axes of column [index]. *)
Definition row_cell (r index : nat) (title : string) (baselines : dict Statistics) (a : Axes)
  : result Axes :=
  a <- for_each baselines (cell_step r title) a ;;
  Ok (cell_finish r index title a).

(** The plotting loop of row [r], and one turn of it. *)
Definition row_loop (r : nat) : systems_t -> Grid -> result Grid :=
  match r with
  | 0 => reward_row
  | 1 => samples_row
  | 2 => compute_row
  | _ => physical_time_row
  end.

Definition row_turn (r : nat) : nat * (string * dict Statistics) -> Grid -> result Grid :=
  match r with
  | 0 => reward_turn
  | 1 => samples_turn
  | 2 => compute_turn
  | _ => physical_time_turn
  end.

(** The curve [l] is the one row [r] draws for the baseline [b]: the
    frequencies 1 / xs against the metric of the row, labelled with the
    name of the baseline. *)
Definition curve_of (r : nat) (title : string) (l : Line) (b : string * Statistics) : Prop :=
  line_x l = map (fun x => (1 / x)%float) (xs (snd b)) /\
  line_label l = fst b /\
  row_metric r title (fst b) (snd b) = Ok (Some (line_y l)).

(** The scale of the y axis in row [r]. *)
Definition yscale_of_row (r : nat) : string :=
  match r with
  | 0 => "linear"
  | _ => "log"
  end.

(** The titles of the three columns, in order. *)
Definition titles : list string :=
  [ "Reacher " ++ nl ++ " [Duration = 2 sec]";
    "RC Car " ++ nl ++ " [Duration = 4 sec]";
    "Halfcheetah " ++ nl ++ " [Duration = 10 sec]" ].

(** [systems] as the three environments leave it. *)
Definition systems_of (r c h : Baselines) : systems_t :=
  [ (nth 0 titles "", snd r); (nth 1 titles "", snd c); (nth 2 titles "", snd h) ].

(** *** Further statements *)

(** The first of the columns [cols] that the frame lacks. *)
Fixpoint first_missing (df : DataFrame) (cols : list string) : option string :=
  match cols with
  | [] => None
  | c :: cols' =>
      match getitem df c with
      | Ok _ => first_missing df cols'
      | Raise _ => Some c
      end
  end.

(** The columns an [update_baselines] reads from the frame it is given:
    reacher's computes the reward and action columns itself. *)
Definition columns_read (e : env) : list string :=
  match e with
  | reacher => ["new_integration_dt"]
  | _ => ["new_integration_dt"; "results/total_reward"; "results/num_actions"]
  end.

(** The columns an [update_baselines] writes into the frame. *)
Definition columns_written (e : env) : list string :=
  match e with
  | reacher => ["results/total_reward"; "results/num_actions";
                "results/reward_with_switch_cost"]
  | _ => ["results/reward_with_switch_cost"]
  end.

(** ** Sample inputs *)

(** Statistics as reacher produces them: two time steps, 100_000 steps. *)
Definition stats_two_steps : Statistics :=
  {| xs := [0.011; 0.02]%float; ys_mean := [1; 2]%float; ys_std := [0; 0]%float;
     base_number_of_steps := 100000 |}.

(** Statistics of a frame none of whose rows passed the filter. *)
Definition stats_no_group : Statistics :=
  {| xs := []; ys_mean := []; ys_std := []; base_number_of_steps := 100000 |}.

(** A small file system on which the whole script runs. *)

(** Ten per-evaluation columns [p0 .. p9] with the same cells. *)
Definition per_eval (p : string) (v : list float) : DataFrame :=
  map (fun i => (p ++ str i, FloatSeries v)) (range NUM_EVALS).

Definition reacher_switch_cost_csv : DataFrame :=
  ([ ("switch_cost", FloatSeries [0.1; 0.1; 1; 0.1]%float);
     ("max_time_between_switches", FloatSeries [0.5; 0.5; 0.5; 0.1]%float);
     ("time_as_part_of_state", BoolSeries [true; true; true; false]);
     ("new_integration_dt", FloatSeries [0.02; 0.01; 0.02; 0.02]%float) ]
   ++ per_eval "results/total_reward_" [10; 20; 30; 14]%float
   ++ per_eval "results/num_actions_" [5; 6; 7; 9]%float)%list.

Definition reacher_no_switch_cost_csv : DataFrame :=
  ([ ("same_amount_of_gradient_updates", BoolSeries [true; false; true; false]);
     ("new_integration_dt", FloatSeries [0.02; 0.01; 0.01; 0.02]%float) ]
   ++ per_eval "results/total_reward_" [10; 20; 30; 14]%float
   ++ per_eval "results/num_actions_" [5; 6; 7; 9]%float)%list.

Definition reacher_naive_model_csv : DataFrame :=
  ([ ("new_integration_dt", FloatSeries [0.02; 0.001; 0.001; 0.02]%float) ]
   ++ per_eval "results/total_reward_" [10; 20; 30; 14]%float
   ++ per_eval "results/num_actions_" [5; 6; 7; 9]%float)%list.

Definition rccar_switch_cost_csv : DataFrame :=
  [ ("switch_cost", FloatSeries [0.1; 0.1; 1; 0.1]%float);
    ("max_time_between_switches", FloatSeries [0.5; 0.5; 0.5; 0.1]%float);
    ("time_as_part_of_state", BoolSeries [true; false; true; true]);
    ("new_integration_dt", FloatSeries [0.5; 0.25; 0.5; 0.5]%float);
    ("results/total_reward", FloatSeries [10; 20; 30; 14]%float);
    ("results/num_actions", FloatSeries [5; 6; 7; 9]%float) ].

Definition rccar_no_switch_cost_csv : DataFrame :=
  [ ("same_amount_of_gradient_updates", BoolSeries [true; false; true; false]);
    ("new_integration_dt", FloatSeries [0.5; 0.25; 0.25; 0.5]%float);
    ("results/total_reward", FloatSeries [10; 20; 30; 14]%float);
    ("results/num_actions", FloatSeries [5; 6; 7; 9]%float) ].

Definition rccar_naive_model_csv : DataFrame :=
  [ ("new_integration_dt", FloatSeries [0.5; 0.001; 0.001; 0.5]%float);
    ("results/total_reward_0", FloatSeries [10; 20; 30; 14]%float);
    ("results/num_actions_0", FloatSeries [5; 6; 7; 9]%float) ].

Definition halfcheetah_equidistant_csv : DataFrame :=
  [ ("new_integration_dt", FloatSeries [0.05; 0.001; 0.025; 0.05]%float);
    ("results/total_reward", FloatSeries [10; 20; 30; 14]%float);
    ("results/total_steps", FloatSeries [200; 10000; 400; 200]%float);
    ("results/num_actions", FloatSeries [5; 6; 7; 9]%float) ].

Definition halfcheetah_adaptive_csv : DataFrame :=
  [ ("switch_cost", FloatSeries [2; 2; 1; 2]%float);
    ("max_time_between_switches", FloatSeries [0.05; 0.05; 0.05; 0.05]%float);
    ("time_as_part_of_state", BoolSeries [true; true; true; false]);
    ("new_integration_dt", FloatSeries [0.05; 0.025; 0.05; 0.05]%float);
    ("results/total_reward", FloatSeries [10; 20; 30; 14]%float);
    ("results/num_actions", FloatSeries [5; 6; 7; 9]%float) ].

Definition halfcheetah_no_switch_cost_csv : DataFrame :=
  [ ("same_amount_of_gradient_updates", BoolSeries [true; false; true; false]);
    ("new_integration_dt", FloatSeries [0.05; 0.025; 0.025; 0.05]%float);
    ("results/total_reward", FloatSeries [10; 20; 30; 14]%float);
    ("results/num_actions", FloatSeries [5; 6; 7; 9]%float) ].

Definition sample_files : FileSystem :=
  [ ("data/reacher/switch_cost.csv", reacher_switch_cost_csv);
    ("data/reacher/no_switch_cost.csv", reacher_no_switch_cost_csv);
    ("data/reacher/naive_model.csv", reacher_naive_model_csv);
    ("data/rccar/switch_cost.csv", rccar_switch_cost_csv);
    ("data/rccar/no_switch_cost.csv", rccar_no_switch_cost_csv);
    ("data/rccar/naive_model.csv", rccar_naive_model_csv);
    ("data/halfcheetah/equidistant.csv", halfcheetah_equidistant_csv);
    ("data/halfcheetah/adaptive.csv", halfcheetah_adaptive_csv);
    ("data/halfcheetah/no_switch_cost.csv", halfcheetah_no_switch_cost_csv) ].

(** The same files with other numbers of actions in rccar's switch-cost
    runs: the rewards and so the Statistics without switch cost are the
    same, the Statistics with switch cost are not. *)
Definition sample_files_other_actions : FileSystem :=
  dict_set sample_files "data/rccar/switch_cost.csv"
    (setitem rccar_switch_cost_csv "results/num_actions"
       (FloatSeries [50; 60; 70; 90]%float)).

(** * Properties *)

(** ** Binary64 facts *)

Lemma SFcompare_antisym (x y : spec_float) :
  SFcompare y x = option_map CompOpp (SFcompare x y).
Proof.
  destruct x as [sx|sx| |sx mx ex], y as [sy|sy| |sy my ey]; simpl; try reflexivity;
    try (destruct sx; reflexivity); try (destruct sy; reflexivity);
    try (destruct sx, sy; reflexivity).
  destruct sx, sy; simpl; try reflexivity;
    rewrite (Z.compare_antisym ey ex); destruct (ey ?= ex)%Z; simpl; try reflexivity;
    rewrite (Pos.compare_cont_antisym mx my Eq); simpl;
    try rewrite CompOpp_involutive; reflexivity.
Qed.

Lemma float_eqb_sym (x y : float) : (x =? y)%float = (y =? x)%float.
Proof.
  rewrite !eqb_spec. unfold SFeqb.
  rewrite (SFcompare_antisym (Prim2SF x) (Prim2SF y)).
  destruct (SFcompare (Prim2SF x) (Prim2SF y)) as [[]|]; reflexivity.
Qed.

(** [c <= x] excludes [x < c]. *)
Lemma float_leb_not_ltb (c x : float) :
  (c <=? x)%float = true -> (x <? c)%float = false.
Proof.
  rewrite leb_spec, ltb_spec. unfold SFleb, SFltb.
  rewrite (SFcompare_antisym (Prim2SF c) (Prim2SF x)).
  destruct (SFcompare (Prim2SF c) (Prim2SF x)) as [[]|]; simpl; congruence.
Qed.

Lemma float_ltb_not_leb (c x : float) :
  (x <? c)%float = true -> (c <=? x)%float = false.
Proof.
  intros H. destruct (c <=? x)%float eqn:E; [|reflexivity].
  apply float_leb_not_ltb in E. congruence.
Qed.

(** Multiplying by 1.0 is exact, NaN and infinities included. *)
Lemma SFmul_one_r (x : spec_float) :
  valid_binary x = true -> SF64mul x (Prim2SF 1) = x.
Proof.
  change (Prim2SF 1) with (S754_finite false 4503599627370496 (-52)).
  destruct x as [s|s| |s m e]; simpl; intros Hv.
  - now rewrite xorb_false_r.
  - now rewrite xorb_false_r.
  - reflexivity.
  - rewrite xorb_false_r. unfold bounded, canonical_mantissa in Hv.
    apply andb_prop in Hv. destruct Hv as [Hc He]. apply Z.eqb_eq in Hc.
    rewrite Pos.mul_comm.
    unfold binary_round_aux, shr_fexp.
    assert (Hd : Zdigits2 (Z.pos (4503599627370496 * m)) = (Zpos (digits2_pos m) + 52)%Z).
    { cbn. lia. }
    rewrite Hd.
    replace (Z.pos (digits2_pos m) + 52 + (e + -52))%Z
      with (Z.pos (digits2_pos m) + e)%Z by lia.
    rewrite Hc. replace (e - (e + -52))%Z with 52%Z by lia.
    cbn -[fexp Z.sub Z.leb Z.add].
    replace (e + -52 + 52)%Z with e by lia.
    rewrite Hc, Z.sub_diag. cbn -[Z.leb Z.sub].
    change (1024 - 53)%Z with (emax - prec)%Z. rewrite He. reflexivity.
Qed.

Lemma float_mul_one_r (x : float) : (x * 1)%float = x.
Proof.
  apply Prim2SF_inj. rewrite mul_spec. apply SFmul_one_r, Prim2SF_valid.
Qed.

(** ** The result monad and dicts *)

Lemma bind_Ok {A B : Type} (r : result A) (k : A -> result B) (b : B) :
  bind r k = Ok b -> exists a, r = Ok a /\ k a = Ok b.
Proof. destruct r as [a|e]; simpl; intros H; [eauto | discriminate]. Qed.

(** Splits a hypothesis [x <- c ;; k = Ok b] into [c = Ok x] and [k x = Ok b]. *)
Tactic Notation "bind_inv" hyp(H) "as" ident(x) ident(Hx) :=
  apply bind_Ok in H; destruct H as (x & Hx & H); cbv beta in H.

Lemma dict_get_set_same {V : Type} (d : dict V) (k : string) (v : V) :
  dict_get (dict_set d k v) k = Ok v.
Proof.
  induction d as [|[k' v'] d IH]; simpl.
  - now rewrite String.eqb_refl.
  - destruct (String.eqb k' k) eqn:E; simpl; rewrite E; [reflexivity | exact IH].
Qed.

Lemma dict_get_set_other {V : Type} (d : dict V) (k k' : string) (v : V) :
  k <> k' -> dict_get (dict_set d k v) k' = dict_get d k'.
Proof.
  intros Hne. induction d as [|[k0 v0] d IH]; simpl.
  - destruct (String.eqb_spec k k'); [contradiction | reflexivity].
  - destruct (String.eqb_spec k0 k) as [->|Hk0]; simpl.
    + destruct (String.eqb_spec k k'); [contradiction | reflexivity].
    + destruct (String.eqb_spec k0 k'); [reflexivity | exact IH].
Qed.

(** ** The derived metrics *)

Lemma last_elem_last (a : ndarray) (d : float) :
  a <> [] -> last_elem a = Ok (last a d).
Proof.
  induction a as [|x a IH]; [congruence|]. intros _.
  destruct a as [|y a]; [reflexivity|].
  change (last_elem (y :: a) = Ok (last (y :: a) d)). apply IH. discriminate.
Qed.

Lemma scalar_mul_ones_like (c : float) (a : ndarray) :
  scalar_mul c (ones_like a) = constant_like c a.
Proof.
  unfold scalar_mul, ones_like, constant_like. rewrite map_map.
  apply map_ext. intros _. apply float_mul_one_r.
Qed.

Lemma scalar_div_div_scalar (c l : float) (a : ndarray) :
  scalar_div c (div_scalar a l) = map (fun x => (c / (x / l))%float) a.
Proof. unfold scalar_div, div_scalar. now rewrite map_map. Qed.

Lemma scalar_mul_div_scalar (c l : float) (a : ndarray) :
  scalar_mul c (div_scalar a l) = map (fun x => (c * (x / l))%float) a.
Proof. unfold scalar_mul, div_scalar. now rewrite map_map. Qed.

Lemma dict_contains_baseline (name : string) :
  dict_contains BASELINE_NAMES name = true <-> In name baseline_keys.
Proof.
  unfold dict_contains, baseline_keys. simpl.
  repeat match goal with
         | |- context [String.eqb name ?k] => destruct (String.eqb_spec name k); subst
         end; simpl; intuition congruence.
Qed.

(** Closes a goal from a hypothesis equating two different float literals. *)
Ltac float_discriminate H :=
  apply Leibniz.eqb_spec in H; vm_compute in H; discriminate H.

Lemma compute_cases (m : metric) (stats : Statistics) :
  xs stats <> [] ->
  let b := float_of_int (base_number_of_steps stats) in
  let l := last (xs stats) nan in
  forall name, In name baseline_keys ->
    compute m name stats = Ok (Some (constant_like b (xs stats))) \/
    compute m name stats = Ok (Some (map (fun x => (b / (x / l))%float) (xs stats))) \/
    compute m name stats = Ok (Some (map (fun x => (b * (x / l))%float) (xs stats))).
Proof.
  intros Hne b l name Hin.
  pose proof (last_elem_last (xs stats) nan Hne) as Hl.
  unfold baseline_keys in Hin. simpl in Hin.
  destruct Hin as [<-|[<-|[<-|[<-|[]]]]]; destruct m; simpl;
    unfold compute_num_gradient_updates, compute_num_measurements, compute_physcal_time;
    simpl; rewrite ?Hl; simpl;
    rewrite ?scalar_mul_ones_like, ?scalar_div_div_scalar, ?scalar_mul_div_scalar; auto.
Qed.

(** C6 (amended): for a Statistics value with non-empty xs, with b the
    float64 of base_number_of_steps and l = xs[-1]: the compute-cost metric
    is the element-wise quotient b / (xs / l) for basline2 and the constant
    array b for basline0, basline1 and basline3; the sample-count metric is
    b / (xs / l) for basline1 and basline2 and the constant b for basline0
    and basline3; the physical-time metric is b * (xs / l) for basline3 and
    the constant b otherwise.  The quotient is the one the code rounds:
    b / (xs / l), not b * (l / xs) nor (b * l) / xs. *)
Theorem C6_metrics_by_baseline (stats : Statistics) :
  xs stats <> [] ->
  let b := float_of_int (base_number_of_steps stats) in
  let l := last (xs stats) nan in
  let constant := Ok (Some (constant_like b (xs stats))) in
  let quotient := Ok (Some (map (fun x => (b / (x / l))%float) (xs stats))) in
  (compute_num_gradient_updates "basline0" stats = constant /\
   compute_num_gradient_updates "basline1" stats = constant /\
   compute_num_gradient_updates "basline2" stats = quotient /\
   compute_num_gradient_updates "basline3" stats = constant) /\
  (compute_num_measurements "basline0" stats = constant /\
   compute_num_measurements "basline1" stats = quotient /\
   compute_num_measurements "basline2" stats = quotient /\
   compute_num_measurements "basline3" stats = constant) /\
  (compute_physcal_time "basline0" stats = constant /\
   compute_physcal_time "basline1" stats = constant /\
   compute_physcal_time "basline2" stats = constant /\
   compute_physcal_time "basline3" stats =
     Ok (Some (map (fun x => (b * (x / l))%float) (xs stats)))).
Proof.
  intros Hne b l constant quotient.
  pose proof (last_elem_last (xs stats) nan Hne) as Hl.
  unfold compute_num_gradient_updates, compute_num_measurements, compute_physcal_time.
  simpl. rewrite Hl. simpl.
  rewrite scalar_mul_ones_like, scalar_div_div_scalar, scalar_mul_div_scalar.
  repeat split; reflexivity.
Qed.

Lemma C6_metrics_by_baseline_witness :
  xs stats_two_steps <> [] /\
  compute_num_gradient_updates "basline2" stats_two_steps =
    Ok (Some [(100000 / (0.011 / 0.02))%float; (100000 / (0.02 / 0.02))%float]) /\
  compute_physcal_time "basline3" stats_two_steps =
    Ok (Some [(100000 * (0.011 / 0.02))%float; (100000 * (0.02 / 0.02))%float]).
Proof.
  assert (Hne : xs stats_two_steps <> []) by discriminate.
  destruct (C6_metrics_by_baseline stats_two_steps Hne)
    as ((_ & _ & Hg & _) & _ & (_ & _ & _ & Hp)).
  split; [exact Hne|]. split; [exact Hg | exact Hp].
Defined.

(** C6 as stated fails on rounding: at xs = [0.011, 0.02] and 100_000 steps
    the code's b / (xs / xs[-1]) is neither b * (xs[-1] / xs) nor
    (b * xs[-1]) / xs. *)
Lemma C6_counterexample :
  let b := float_of_int (base_number_of_steps stats_two_steps) in
  let l := last (xs stats_two_steps) nan in
  compute_num_gradient_updates "basline2" stats_two_steps
    <> Ok (Some (map (fun x => (b * (l / x))%float) (xs stats_two_steps))) /\
  compute_num_gradient_updates "basline2" stats_two_steps
    <> Ok (Some (map (fun x => (b * l / x)%float) (xs stats_two_steps))).
Proof.
  split; intros H;
    apply (f_equal (fun r => match r with Ok (Some (x :: _)) => x | _ => nan end)) in H;
    float_discriminate H.
Qed.

(** C10 (amended): each of the three metric functions raises AssertionError
    exactly when baseline_name is not one of the four keys, and never
    returns None; for each of the four keys and non-empty xs it returns an
    array of the length of xs.  On empty xs the branches that read xs[-1]
    raise IndexError: basline2 of compute_num_gradient_updates, basline1 and
    basline2 of compute_num_measurements and basline3 of
    compute_physcal_time; the other nine branches return the empty array. *)
Theorem C10_assertion_and_shape (m : metric) (name : string) (stats : Statistics) :
  (compute m name stats = Raise AssertionError <-> ~ In name baseline_keys) /\
  compute m name stats <> Ok None /\
  (In name baseline_keys -> xs stats <> [] ->
     exists a, compute m name stats = Ok (Some a) /\
               List.length a = List.length (xs stats)) /\
  (xs stats = [] ->
     (compute_num_gradient_updates "basline0" stats = Ok (Some []) /\
      compute_num_gradient_updates "basline1" stats = Ok (Some []) /\
      compute_num_gradient_updates "basline2" stats = Raise IndexError /\
      compute_num_gradient_updates "basline3" stats = Ok (Some [])) /\
     (compute_num_measurements "basline0" stats = Ok (Some []) /\
      compute_num_measurements "basline1" stats = Raise IndexError /\
      compute_num_measurements "basline2" stats = Raise IndexError /\
      compute_num_measurements "basline3" stats = Ok (Some [])) /\
     (compute_physcal_time "basline0" stats = Ok (Some []) /\
      compute_physcal_time "basline1" stats = Ok (Some []) /\
      compute_physcal_time "basline2" stats = Ok (Some []) /\
      compute_physcal_time "basline3" stats = Raise IndexError)).
Proof.
  assert (Hempty : xs stats = [] ->
            (compute_num_gradient_updates "basline0" stats = Ok (Some []) /\
             compute_num_gradient_updates "basline1" stats = Ok (Some []) /\
             compute_num_gradient_updates "basline2" stats = Raise IndexError /\
             compute_num_gradient_updates "basline3" stats = Ok (Some [])) /\
            (compute_num_measurements "basline0" stats = Ok (Some []) /\
             compute_num_measurements "basline1" stats = Raise IndexError /\
             compute_num_measurements "basline2" stats = Raise IndexError /\
             compute_num_measurements "basline3" stats = Ok (Some [])) /\
            (compute_physcal_time "basline0" stats = Ok (Some []) /\
             compute_physcal_time "basline1" stats = Ok (Some []) /\
             compute_physcal_time "basline2" stats = Ok (Some []) /\
             compute_physcal_time "basline3" stats = Raise IndexError)).
  { intros Exs.
    unfold compute_num_gradient_updates, compute_num_measurements, compute_physcal_time.
    simpl. rewrite Exs. simpl. repeat split; reflexivity. }
  assert (Hin : In name baseline_keys ->
                compute m name stats <> Raise AssertionError /\
                compute m name stats <> Ok None /\
                (xs stats <> [] -> exists a, compute m name stats = Ok (Some a) /\
                                            List.length a = List.length (xs stats))).
  { intros Hk. repeat split.
    - destruct (xs stats) as [|x0 a0] eqn:Exs.
      + destruct (Hempty eq_refl)
          as ((G0 & G1 & G2 & G3) & (M0 & M1 & M2 & M3) & (P0 & P1 & P2 & P3)).
        unfold baseline_keys in Hk; simpl in Hk.
        destruct Hk as [<-|[<-|[<-|[<-|[]]]]]; destruct m; simpl;
          rewrite ?G0, ?G1, ?G2, ?G3, ?M0, ?M1, ?M2, ?M3, ?P0, ?P1, ?P2, ?P3;
          discriminate.
      + assert (Hne : xs stats <> []) by (rewrite Exs; discriminate).
        destruct (compute_cases m stats Hne name Hk) as [H|[H|H]]; rewrite H; discriminate.
    - destruct (xs stats) as [|x0 a0] eqn:Exs.
      + destruct (Hempty eq_refl)
          as ((G0 & G1 & G2 & G3) & (M0 & M1 & M2 & M3) & (P0 & P1 & P2 & P3)).
        unfold baseline_keys in Hk; simpl in Hk.
        destruct Hk as [<-|[<-|[<-|[<-|[]]]]]; destruct m; simpl;
          rewrite ?G0, ?G1, ?G2, ?G3, ?M0, ?M1, ?M2, ?M3, ?P0, ?P1, ?P2, ?P3;
          discriminate.
      + assert (Hne : xs stats <> []) by (rewrite Exs; discriminate).
        destruct (compute_cases m stats Hne name Hk) as [H|[H|H]]; rewrite H; discriminate.
    - intros Hne.
      destruct (compute_cases m stats Hne name Hk) as [H|[H|H]]; rewrite H;
        eexists; (split; [reflexivity|]); unfold constant_like; now rewrite length_map. }
  assert (Hout : ~ In name baseline_keys ->
                 compute m name stats = Raise AssertionError).
  { intros Hk.
    assert (Hc : dict_contains BASELINE_NAMES name = false).
    { destruct (dict_contains BASELINE_NAMES name) eqn:E; [|reflexivity].
      apply dict_contains_baseline in E. contradiction. }
    destruct m; simpl;
      unfold compute_num_gradient_updates, compute_num_measurements, compute_physcal_time;
      rewrite Hc; reflexivity. }
  assert (Hdec : In name baseline_keys \/ ~ In name baseline_keys).
  { destruct (in_dec string_dec name baseline_keys); auto. }
  split; [|split; [|split]].
  - split.
    + intros H Hk. apply Hin in Hk. destruct Hk as (Hk & _). contradiction.
    + exact Hout.
  - destruct Hdec as [Hk|Hk].
    + apply Hin in Hk. tauto.
    + rewrite (Hout Hk). discriminate.
  - intros Hk. apply Hin in Hk. tauto.
  - exact Hempty.
Qed.

Lemma C10_assertion_and_shape_witness :
  compute gradient_updates "basline9" stats_two_steps = Raise AssertionError /\
  (exists a, compute gradient_updates "basline2" stats_two_steps = Ok (Some a) /\
             List.length a = 2%nat) /\
  compute_num_gradient_updates "basline0" stats_no_group = Ok (Some []) /\
  compute_num_measurements "basline1" stats_no_group = Raise IndexError /\
  compute_physcal_time "basline3" stats_no_group = Raise IndexError.
Proof.
  split; [|split].
  - apply (proj1 (C10_assertion_and_shape gradient_updates "basline9" stats_two_steps)).
    intros H. vm_compute in H. intuition discriminate.
  - apply (proj1 (proj2 (proj2 (C10_assertion_and_shape gradient_updates "basline2"
                                   stats_two_steps)))).
    + vm_compute. auto.
    + discriminate.
  - destruct (proj2 (proj2 (proj2 (C10_assertion_and_shape gradient_updates "basline0"
                                     stats_no_group))) eq_refl)
      as ((G0 & _) & (_ & M1 & _) & (_ & _ & _ & P3)).
    repeat split; assumption.
Defined.

(** C10 as stated fails on empty xs: for the key basline2 the compute-cost
    metric raises IndexError at xs[-1] and returns no array. *)
Lemma C10_counterexample :
  In "basline2" baseline_keys /\
  compute_num_gradient_updates "basline2" stats_no_group = Raise IndexError /\
  ~ exists a, compute_num_gradient_updates "basline2" stats_no_group = Ok (Some a) /\
              List.length a = List.length (xs stats_no_group).
Proof.
  split; [vm_compute; auto|]. split; [reflexivity|].
  intros (a & H & _). vm_compute in H. discriminate.
Qed.

(** ** Group-by aggregation *)

Section AggregationFacts.
Context {pandas : Pandas}.

Lemma grouped_statistics_eq (df : DataFrame) (col env : string) :
  grouped_statistics df col env =
    (k <- getitem df "new_integration_dt" ;;
     v <- getitem df col ;;
     n <- dict_get BASE_NUMBER_OF_STEPS env ;;
     Ok (group_statistics (values k) (values v) n)).
Proof.
  unfold grouped_statistics, groupby_agg_mean_std.
  destruct (getitem df "new_integration_dt") as [k|e]; [|reflexivity]. simpl.
  destruct (getitem df col) as [v|e]; reflexivity.
Qed.

Lemma grouped_statistics_Ok (df : DataFrame) (col env : string) (st : Statistics) :
  grouped_statistics df col env = Ok st ->
  exists k v n, getitem df "new_integration_dt" = Ok k /\ getitem df col = Ok v /\
                dict_get BASE_NUMBER_OF_STEPS env = Ok n /\
                st = group_statistics (values k) (values v) n.
Proof.
  rewrite grouped_statistics_eq. intros H.
  bind_inv H as k Hk. bind_inv H as v Hv. bind_inv H as n Hn. injection H as <-. eauto 8.
Qed.

(** The two environments' aggregations differ in the step count only. *)
Lemma grouped_statistics_env (df : DataFrame) (col : string) :
  (exists st, grouped_statistics df col "rccar" = Ok (with_base 50000 st) /\
              grouped_statistics df col "halfcheetah" = Ok (with_base 1000000 st)) \/
  (exists e, grouped_statistics df col "rccar" = Raise e /\
             grouped_statistics df col "halfcheetah" = Raise e).
Proof.
  rewrite !grouped_statistics_eq.
  destruct (getitem df "new_integration_dt") as [k|e]; [|right; eexists; split; reflexivity]. simpl.
  destruct (getitem df col) as [v|e]; [|right; eexists; split; reflexivity]. simpl.
  left. exists (group_statistics (values k) (values v) 0). split; reflexivity.
Qed.

(** C7: the rccar and the halfcheetah definitions of update_baselines
    compute the same function of their input: called with the same
    SWITCH_COST, frame, name and dicts, either both raise the same
    exception, or both leave the same frame and store under the name
    Statistics with equal xs, ys_mean and ys_std, whose
    base_number_of_steps is 50_000 for rccar and 1_000_000 for halfcheetah. *)
Theorem C7_rccar_halfcheetah_same_function (SWITCH_COST : float) (cur_data : DataFrame)
    (baseline_name : string) (w wo : dict Statistics) :
  (exists cur' st st',
     RCCar.update_baselines SWITCH_COST cur_data baseline_name w wo =
       Ok (cur', (dict_set w baseline_name (with_base 50000 st'),
                  dict_set wo baseline_name (with_base 50000 st))) /\
     Halfcheetah.update_baselines SWITCH_COST cur_data baseline_name w wo =
       Ok (cur', (dict_set w baseline_name (with_base 1000000 st'),
                  dict_set wo baseline_name (with_base 1000000 st)))) \/
  (exists e,
     RCCar.update_baselines SWITCH_COST cur_data baseline_name w wo = Raise e /\
     Halfcheetah.update_baselines SWITCH_COST cur_data baseline_name w wo = Raise e).
Proof.
  unfold RCCar.update_baselines, Halfcheetah.update_baselines.
  destruct (grouped_statistics_env cur_data "results/total_reward")
    as [(st & -> & ->)|(e & -> & ->)]; [|right; eexists; split; reflexivity]. simpl.
  destruct (assign_sub_scaled SWITCH_COST cur_data "results/reward_with_switch_cost"
              "results/total_reward" "results/num_actions") as [cur'|e];
    [|right; eexists; split; reflexivity]. simpl.
  destruct (grouped_statistics_env cur' "results/reward_with_switch_cost")
    as [(st' & -> & ->)|(e & -> & ->)]; [|right; eexists; split; reflexivity]. simpl.
  left. exists cur', st, st'. split; reflexivity.
Qed.

Lemma unique_keys_In (ks seen : list float) (v : float) :
  In v (unique_keys seen ks) -> In v ks.
Proof.
  revert seen. induction ks as [|k ks IH]; simpl; intros seen H; [exact H|].
  destruct (existsb (fun s => (s =? k)%float) seen).
  - right. eapply IH, H.
  - destruct H as [->|H]; [now left | right; eapply IH, H].
Qed.

Lemma unique_keys_unseen (ks seen : list float) (v s : float) :
  In v (unique_keys seen ks) -> In s seen -> (s =? v)%float = false.
Proof.
  revert seen. induction ks as [|k ks IH]; simpl; intros seen H Hs; [contradiction|].
  destruct (existsb (fun s => (s =? k)%float) seen) eqn:E.
  - eapply IH; eassumption.
  - destruct H as [<-|H].
    + destruct (s =? k)%float eqn:Es; [|reflexivity].
      assert (existsb (fun s => (s =? k)%float) seen = true)
        by (apply existsb_exists; eauto).
      congruence.
    + eapply IH; [exact H | now right].
Qed.

Lemma unique_keys_distinct (ks seen : list float) : distinct (unique_keys seen ks).
Proof.
  revert seen. induction ks as [|k ks IH]; simpl; intros seen; [constructor|].
  destruct (existsb (fun s => (s =? k)%float) seen); [apply IH|].
  constructor; [|apply IH].
  intros y Hy. eapply unique_keys_unseen; [exact Hy | now left].
Qed.

Lemma unique_keys_cover (ks seen : list float) (k : float) :
  In k ks -> notna k = true ->
  (exists s, In s seen /\ (s =? k)%float = true) \/
  (exists v, In v (unique_keys seen ks) /\ (v =? k)%float = true).
Proof.
  revert seen. induction ks as [|k0 ks IH]; simpl; intros seen Hin Hk; [contradiction|].
  destruct (existsb (fun s => (s =? k0)%float) seen) eqn:E.
  - destruct Hin as [->|Hin]; [|now apply IH].
    left. apply existsb_exists in E. exact E.
  - destruct Hin as [->|Hin].
    + right. exists k. split; [now left | exact Hk].
    + destruct (IH (k0 :: seen) Hin Hk) as [(s & [<-|Hs] & Es)|(v & Hv & Ev)].
      * right. exists k0. split; [now left | exact Es].
      * left. eauto.
      * right. exists v. split; [now right | exact Ev].
Qed.

Lemma insert_key_In (k v : float) (l : list float) :
  In v (insert_key k l) <-> v = k \/ In v l.
Proof.
  induction l as [|x l IH]; simpl.
  - intuition.
  - destruct (k <=? x)%float; simpl; rewrite ?IH; intuition.
Qed.

Lemma sort_keys_In (v : float) (l : list float) : In v (sort_keys l) <-> In v l.
Proof.
  induction l as [|x l IH]; [reflexivity|].
  change (sort_keys (x :: l)) with (insert_key x (sort_keys l)).
  rewrite insert_key_In, IH. simpl. intuition.
Qed.

Lemma insert_key_distinct (k : float) (l : list float) :
  distinct l -> (forall y, In y l -> (k =? y)%float = false) -> distinct (insert_key k l).
Proof.
  induction 1 as [|x l Hx Hl IH]; simpl; intros Hk.
  - constructor; [intros y []|constructor].
  - destruct (k <=? x)%float.
    + constructor; [exact Hk | now constructor].
    + constructor.
      * intros y Hy. apply insert_key_In in Hy. destruct Hy as [->|Hy].
        -- rewrite float_eqb_sym. apply Hk. now left.
        -- now apply Hx.
      * apply IH. intros y Hy. apply Hk. now right.
Qed.

Lemma sort_keys_distinct (l : list float) : distinct l -> distinct (sort_keys l).
Proof.
  induction 1 as [|x l Hx Hl IH]; [constructor|].
  change (sort_keys (x :: l)) with (insert_key x (sort_keys l)).
  apply insert_key_distinct; [exact IH|].
  intros y Hy. apply Hx. apply (proj1 (sort_keys_In y l)), Hy.
Qed.

Lemma group_keys_distinct_values (keys : ndarray) :
  distinct_values_of keys (group_keys keys).
Proof.
  unfold distinct_values_of, group_keys. repeat split.
  - apply sort_keys_distinct, unique_keys_distinct.
  - apply sort_keys_In, unique_keys_In, filter_In in H. tauto.
  - apply sort_keys_In, unique_keys_In, filter_In in H. tauto.
  - intros k Hin Hk.
    destruct (unique_keys_cover (filter notna keys) [] k) as [(s & [] & _)|(v & Hv & Ev)].
    + apply filter_In. tauto.
    + exact Hk.
    + exists v. split; [now apply sort_keys_In | exact Ev].
Qed.

Lemma group_statistics_aggregates (keys vals : ndarray) (n : Z) :
  aggregates (group_statistics keys vals n) keys vals.
Proof.
  unfold aggregates, group_statistics. simpl.
  split; [apply group_keys_distinct_values|].
  rewrite !length_map. repeat split.
  - rewrite (nth_indep _ nan (group_mean (group_cells nan keys vals)))
      by (now rewrite length_map).
    apply (map_nth (fun g => group_mean (group_cells g keys vals))).
  - rewrite (nth_indep _ nan (group_std (group_cells nan keys vals)))
      by (now rewrite length_map).
    apply (map_nth (fun g => group_std (group_cells g keys vals))).
Qed.

(** What a successful aggregation did. *)
Lemma aggregate_block_Ok (env penalty : string) (SWITCH_COST : float) (df : DataFrame)
    (name : string) (w wo : dict Statistics) (cur' : DataFrame) (w' wo' : dict Statistics) :
  aggregate_block env penalty SWITCH_COST df name w wo = Ok (cur', (w', wo')) ->
  exists k r a n,
    getitem df "new_integration_dt" = Ok k /\
    getitem df "results/total_reward" = Ok r /\
    getitem df penalty = Ok a /\
    dict_get BASE_NUMBER_OF_STEPS env = Ok n /\
    cur' = setitem df "results/reward_with_switch_cost" (sub_scaled SWITCH_COST r a) /\
    wo' = dict_set wo name (group_statistics (values k) (values r) n) /\
    w' = dict_set w name
           (group_statistics (values k) (penalised SWITCH_COST (values r) (values a)) n).
Proof.
  unfold aggregate_block. intros H'.
  bind_inv H' as st Hst. bind_inv H' as cur Hcur. bind_inv H' as st' Hst'.
  injection H' as <- <- <-.
  apply grouped_statistics_Ok in Hst as (k & r & n & Hk & Hr & Hn & ->).
  unfold assign_sub_scaled in Hcur. bind_inv Hcur as r' Hr'. bind_inv Hcur as a Ha.
  injection Hcur as <-.
  apply grouped_statistics_Ok in Hst' as (k' & v' & n' & Hk' & Hv' & Hn' & ->).
  unfold getitem, setitem in *.
  rewrite dict_get_set_other in Hk' by discriminate.
  rewrite dict_get_set_same in Hv'.
  rewrite Hk in Hk'. injection Hk' as <-. injection Hv' as <-.
  rewrite Hr in Hr'. injection Hr' as <-.
  rewrite Hn in Hn'. injection Hn' as <-.
  exists k, r, a, n. repeat split; assumption.
Qed.

Lemma update_baselines_of_eq (e : env) (SWITCH_COST : float) (cur_data : DataFrame)
    (name : string) (w wo : dict Statistics) :
  update_baselines_of e SWITCH_COST cur_data name w wo =
    aggregate_block (env_name e) "results/num_actions" SWITCH_COST (frame_of e cur_data)
      name w wo.
Proof. destruct e; reflexivity. Qed.

(** What a successful call of any of the three [update_baselines] did. *)
Lemma update_baselines_of_Ok (e : env) (SWITCH_COST : float) (cur_data : DataFrame)
    (name : string) (w wo : dict Statistics) (cur' : DataFrame) (w' wo' : dict Statistics) :
  update_baselines_of e SWITCH_COST cur_data name w wo = Ok (cur', (w', wo')) ->
  exists k r a n,
    getitem (frame_of e cur_data) "new_integration_dt" = Ok k /\
    getitem (frame_of e cur_data) "results/total_reward" = Ok r /\
    getitem (frame_of e cur_data) "results/num_actions" = Ok a /\
    dict_get BASE_NUMBER_OF_STEPS (env_name e) = Ok n /\
    cur' = setitem (frame_of e cur_data) "results/reward_with_switch_cost"
             (sub_scaled SWITCH_COST r a) /\
    wo' = dict_set wo name (group_statistics (values k) (values r) n) /\
    w' = dict_set w name
           (group_statistics (values k) (penalised SWITCH_COST (values r) (values a)) n).
Proof. rewrite update_baselines_of_eq. apply aggregate_block_Ok. Qed.

(** C3: after a successful call of any of the three update_baselines, the
    Statistics stored under the baseline name in the dict without switch
    cost has as xs the distinct (non-missing) values of the
    new_integration_dt column, and ys_mean[i], ys_std[i] are the mean and
    the standard deviation of the results/total_reward cells of the rows
    whose key is xs[i]; the three arrays have one length.  The columns are
    those of the frame as the call leaves it (reacher's call writes
    results/total_reward itself). *)
Theorem C3_statistics_without_switch_cost (e : env) (SWITCH_COST : float)
    (cur_data : DataFrame) (baseline_name : string) (w wo : dict Statistics)
    (cur' : DataFrame) (w' wo' : dict Statistics) :
  update_baselines_of e SWITCH_COST cur_data baseline_name w wo = Ok (cur', (w', wo')) ->
  exists keys rewards st,
    getitem cur' "new_integration_dt" = Ok keys /\
    getitem cur' "results/total_reward" = Ok rewards /\
    dict_get wo' baseline_name = Ok st /\
    aggregates st (values keys) (values rewards).
Proof.
  intros H.
  apply update_baselines_of_Ok in H as (k & r & a & n & Hk & Hr & Ha & Hn & -> & -> & ->).
  exists k, r, (group_statistics (values k) (values r) n).
  unfold getitem, setitem in *.
  rewrite !dict_get_set_other by discriminate. rewrite dict_get_set_same.
  split; [assumption|]. split; [assumption|]. split; [reflexivity|].
  apply group_statistics_aggregates.
Qed.

Lemma reacher_baselines_eq (fs : FileSystem) (SWITCH_COST : float) :
  Reacher.baselines fs SWITCH_COST =
    ('(f0, f1, f2, f3) <- Reacher.frames fs SWITCH_COST ;;
     four_calls reacher SWITCH_COST f0 f1 f2 f3).
Proof. reflexivity. Qed.

Lemma rccar_baselines_eq (fs : FileSystem) (SWITCH_COST MAX_TIME_BETWEEN_SWITCHES : float) :
  RCCar.baselines fs SWITCH_COST MAX_TIME_BETWEEN_SWITCHES =
    ('(f0, f1, f2, f3) <- RCCar.frames fs SWITCH_COST MAX_TIME_BETWEEN_SWITCHES ;;
     four_calls rccar SWITCH_COST f0 f1 f2 f3).
Proof. reflexivity. Qed.

Lemma aggregate_block_stored (env penalty : string) (SWITCH_COST : float) (df : DataFrame)
    (name : string) (w wo : dict Statistics) (r : DataFrame * Baselines) :
  aggregate_block env penalty SWITCH_COST df name w wo = Ok r ->
  exists st' st, stored_by_block env penalty SWITCH_COST df st' st /\
                 snd r = (dict_set w name st', dict_set wo name st).
Proof.
  destruct r as [cur' [w' wo']]. intros H.
  apply aggregate_block_Ok in H as (k & r & a & n & Hk & Hr & Ha & Hn & _ & -> & ->).
  do 2 eexists. split; [|reflexivity]. exists k, r, a, n. auto 8.
Qed.

Lemma update_baselines_of_stored (e : env) (SWITCH_COST : float) (f : DataFrame)
    (name : string) (w wo : dict Statistics) (r : DataFrame * Baselines) :
  update_baselines_of e SWITCH_COST f name w wo = Ok r ->
  exists st' st, stored_by_call e SWITCH_COST f st' st /\
                 snd r = (dict_set w name st', dict_set wo name st).
Proof. rewrite update_baselines_of_eq. apply aggregate_block_stored. Qed.

Lemma four_calls_Ok (e : env) (SWITCH_COST : float) (f0 f1 f2 f3 : DataFrame)
    (w wo : dict Statistics) :
  four_calls e SWITCH_COST f0 f1 f2 f3 = Ok (w, wo) ->
  exists s0 s1 s2 s3 t0 t1 t2 t3,
    stored_by_call e SWITCH_COST f0 s0 t0 /\ stored_by_call e SWITCH_COST f1 s1 t1 /\
    stored_by_call e SWITCH_COST f2 s2 t2 /\ stored_by_call e SWITCH_COST f3 s3 t3 /\
    w = [(display "basline0", s0); (display "basline1", s1);
         (display "basline2", s2); (display "basline3", s3)] /\
    wo = [(display "basline0", t0); (display "basline1", t1);
          (display "basline2", t2); (display "basline3", t3)].
Proof.
  unfold four_calls. intros H.
  apply bind_Ok in H as (r0 & H0 & H).
  apply update_baselines_of_stored in H0 as (s0 & t0 & Hs0 & E0).
  destruct r0 as [c0 [w0 wo0]]. simpl in E0. injection E0 as -> ->.
  apply bind_Ok in H as (r1 & H1 & H).
  apply update_baselines_of_stored in H1 as (s1 & t1 & Hs1 & E1).
  destruct r1 as [c1 [w1 wo1]]. simpl in E1. injection E1 as -> ->.
  apply bind_Ok in H as (r2 & H2 & H).
  apply update_baselines_of_stored in H2 as (s2 & t2 & Hs2 & E2).
  destruct r2 as [c2 [w2 wo2]]. simpl in E2. injection E2 as -> ->.
  apply bind_Ok in H as (r3 & H3 & H).
  apply update_baselines_of_stored in H3 as (s3 & t3 & Hs3 & E3).
  destruct r3 as [c3 [w3 wo3]]. simpl in E3. injection E3 as -> ->.
  injection H as <- <-.
  exists s0, s1, s2, s3, t0, t1, t2, t3. repeat split; assumption.
Qed.

Lemma stored_by_block_with (env penalty : string) (SWITCH_COST : float) (df : DataFrame)
    (st' st : Statistics) (w : dict Statistics) (key : string) :
  stored_by_block env penalty SWITCH_COST df st' st ->
  dict_get w (display key) = Ok st' ->
  stored_with_switch_cost SWITCH_COST df penalty w key.
Proof.
  intros (k & r & a & n & Hk & Hr & Ha & Hn & _ & ->) Hw.
  exists (group_statistics (values k) (penalised SWITCH_COST (values r) (values a)) n),
    k, r, a.
  repeat (split; [assumption|]). apply group_statistics_aggregates.
Qed.

Lemma adaptive_Ok (fs : FileSystem) (SWITCH_COST MAX_TIME_BETWEEN_SWITCHES : float)
    (filtered_df : DataFrame) :
  Halfcheetah.adaptive fs SWITCH_COST MAX_TIME_BETWEEN_SWITCHES = Ok filtered_df ->
  exists r a,
    getitem filtered_df "results/total_reward" = Ok r /\
    getitem filtered_df "results/num_actions" = Ok a /\
    getitem filtered_df "results/reward_with_switch_cost" = Ok (sub_scaled SWITCH_COST r a).
Proof.
  unfold Halfcheetah.adaptive. intros H.
  bind_inv H as csv Hcsv. bind_inv H as c Hc. bind_inv H as t Ht. bind_inv H as s Hs.
  unfold assign_sub_scaled in H. bind_inv H as r Hr. bind_inv H as a Ha.
  injection H as <-. exists r, a. unfold getitem, setitem in *.
  rewrite !dict_get_set_other by discriminate. rewrite dict_get_set_same. auto.
Qed.

Lemma halfcheetah_baselines_Ok (fs : FileSystem)
    (SWITCH_COST MAX_TIME_BETWEEN_SWITCHES : float)
    (data filtered_df d2 d1 : DataFrame) (w wo : dict Statistics) :
  Halfcheetah.equidistant fs = Ok data ->
  Halfcheetah.adaptive fs SWITCH_COST MAX_TIME_BETWEEN_SWITCHES = Ok filtered_df ->
  Halfcheetah.no_switch_cost fs false = Ok d2 ->
  Halfcheetah.no_switch_cost fs true = Ok d1 ->
  Halfcheetah.baselines fs SWITCH_COST MAX_TIME_BETWEEN_SWITCHES = Ok (w, wo) ->
  exists s0 s1 s2 s3 t0 t1 t2 t3,
    grouped_statistics filtered_df "results/total_reward" "halfcheetah" = Ok t0 /\
    grouped_statistics filtered_df "results/reward_with_switch_cost" "halfcheetah" = Ok s0 /\
    stored_by_block "halfcheetah" "results/total_steps" SWITCH_COST data s3 t3 /\
    stored_by_block "halfcheetah" "results/num_actions" SWITCH_COST d2 s2 t2 /\
    stored_by_block "halfcheetah" "results/num_actions" SWITCH_COST d1 s1 t1 /\
    w = [(display "basline0", s0); (display "basline3", s3);
         (display "basline2", s2); (display "basline1", s1)] /\
    wo = [(display "basline0", t0); (display "basline3", t3);
          (display "basline2", t2); (display "basline1", t1)].
Proof.
  intros Hdata Hfdf Hd2 Hd1 H. unfold Halfcheetah.baselines in H.
  rewrite Hdata, Hfdf in H. cbn [bind] in H.
  apply bind_Ok in H as (b0 & H0 & H).
  unfold Halfcheetah.basline0_block in H0.
  bind_inv H0 as t0 Ht0. simpl in H0. bind_inv H0 as s0 Hs0. simpl in H0.
  injection H0 as <-.
  apply bind_Ok in H as (r3 & H3 & H). destruct r3 as [c3 b3].
  change (aggregate_block "halfcheetah" "results/total_steps" SWITCH_COST data
            (display "basline3") [(display "basline0", s0)] [(display "basline0", t0)]
          = Ok (c3, b3)) in H3.
  apply aggregate_block_stored in H3 as (s3 & t3 & Hs3 & E3). simpl in E3. subst b3.
  rewrite Hd2 in H. cbn [bind] in H.
  apply bind_Ok in H as (r2 & H2 & H). destruct r2 as [c2 b2].
  change (aggregate_block "halfcheetah" "results/num_actions" SWITCH_COST d2
            (display "basline2")
            (dict_set [(display "basline0", s0)] (display "basline3") s3)
            (dict_set [(display "basline0", t0)] (display "basline3") t3)
          = Ok (c2, b2)) in H2.
  apply aggregate_block_stored in H2 as (s2 & t2 & Hs2 & E2). simpl in E2. subst b2.
  rewrite Hd1 in H. cbn [bind] in H.
  apply bind_Ok in H as (n1 & Hn1 & H). injection Hn1 as <-.
  apply bind_Ok in H as (r1 & H1 & H). destruct r1 as [c1 b1].
  apply (update_baselines_of_stored halfcheetah) in H1 as (s1 & t1 & Hs1 & E1).
  simpl in E1. subst b1. injection H as <- <-.
  exists s0, s1, s2, s3, t0, t1, t2, t3. repeat split; assumption.
Qed.

(** C1 (amended): in every environment the reward-with-switch-cost
    Statistics of every baseline are the per-group mean and standard
    deviation, grouped by new_integration_dt, of results/total_reward minus
    SWITCH_COST times a penalty column over the rows of the frame aggregated
    for that baseline.  The penalty column is results/num_actions
    everywhere but for halfcheetah's basline3 (the equidistant CSV), where
    it is results/total_steps.  For reacher results/total_reward and
    results/num_actions are the row means over the per-evaluation columns
    that update_baselines computes first. *)
Theorem C1_reward_with_switch_cost (fs : FileSystem)
    (SWITCH_COST MAX_TIME_BETWEEN_SWITCHES : float) :
  (forall f0 f1 f2 f3 w wo,
     Reacher.frames fs SWITCH_COST = Ok (f0, f1, f2, f3) ->
     Reacher.baselines fs SWITCH_COST = Ok (w, wo) ->
     stored_with_switch_cost SWITCH_COST (Reacher.mean_over_evals f0)
       "results/num_actions" w "basline0" /\
     stored_with_switch_cost SWITCH_COST (Reacher.mean_over_evals f1)
       "results/num_actions" w "basline1" /\
     stored_with_switch_cost SWITCH_COST (Reacher.mean_over_evals f2)
       "results/num_actions" w "basline2" /\
     stored_with_switch_cost SWITCH_COST (Reacher.mean_over_evals f3)
       "results/num_actions" w "basline3") /\
  (forall f0 f1 f2 f3 w wo,
     RCCar.frames fs SWITCH_COST MAX_TIME_BETWEEN_SWITCHES = Ok (f0, f1, f2, f3) ->
     RCCar.baselines fs SWITCH_COST MAX_TIME_BETWEEN_SWITCHES = Ok (w, wo) ->
     stored_with_switch_cost SWITCH_COST f0 "results/num_actions" w "basline0" /\
     stored_with_switch_cost SWITCH_COST f1 "results/num_actions" w "basline1" /\
     stored_with_switch_cost SWITCH_COST f2 "results/num_actions" w "basline2" /\
     stored_with_switch_cost SWITCH_COST f3 "results/num_actions" w "basline3") /\
  (forall data filtered_df d2 d1 w wo,
     Halfcheetah.equidistant fs = Ok data ->
     Halfcheetah.adaptive fs SWITCH_COST MAX_TIME_BETWEEN_SWITCHES = Ok filtered_df ->
     Halfcheetah.no_switch_cost fs false = Ok d2 ->
     Halfcheetah.no_switch_cost fs true = Ok d1 ->
     Halfcheetah.baselines fs SWITCH_COST MAX_TIME_BETWEEN_SWITCHES = Ok (w, wo) ->
     stored_with_switch_cost SWITCH_COST filtered_df "results/num_actions" w "basline0" /\
     stored_with_switch_cost SWITCH_COST d1 "results/num_actions" w "basline1" /\
     stored_with_switch_cost SWITCH_COST d2 "results/num_actions" w "basline2" /\
     stored_with_switch_cost SWITCH_COST data "results/total_steps" w "basline3").
Proof.
  split; [|split].
  - intros f0 f1 f2 f3 w wo Hf H. rewrite reacher_baselines_eq, Hf in H.
    apply four_calls_Ok in H
      as (s0 & s1 & s2 & s3 & t0 & t1 & t2 & t3 & H0 & H1 & H2 & H3 & -> & _).
    repeat split;
      [ apply (stored_by_block_with _ _ _ _ _ _ _ _ H0)
      | apply (stored_by_block_with _ _ _ _ _ _ _ _ H1)
      | apply (stored_by_block_with _ _ _ _ _ _ _ _ H2)
      | apply (stored_by_block_with _ _ _ _ _ _ _ _ H3) ]; reflexivity.
  - intros f0 f1 f2 f3 w wo Hf H. rewrite rccar_baselines_eq, Hf in H.
    apply four_calls_Ok in H
      as (s0 & s1 & s2 & s3 & t0 & t1 & t2 & t3 & H0 & H1 & H2 & H3 & -> & _).
    repeat split;
      [ apply (stored_by_block_with _ _ _ _ _ _ _ _ H0)
      | apply (stored_by_block_with _ _ _ _ _ _ _ _ H1)
      | apply (stored_by_block_with _ _ _ _ _ _ _ _ H2)
      | apply (stored_by_block_with _ _ _ _ _ _ _ _ H3) ]; reflexivity.
  - intros data fdf d2 d1 w wo Hdata Hfdf Hd2 Hd1 H.
    destruct (halfcheetah_baselines_Ok _ _ _ _ _ _ _ _ _ Hdata Hfdf Hd2 Hd1 H)
      as (s0 & s1 & s2 & s3 & t0 & t1 & t2 & t3 & Ht0 & Hs0 & H3 & H2 & H1 & -> & _).
    split; [|split; [|split]].
    + apply adaptive_Ok in Hfdf as (r & a & Hr & Ha & Hv).
      apply grouped_statistics_Ok in Hs0 as (k & v & n & Hk & Hv' & Hn & ->).
      rewrite Hv in Hv'. injection Hv' as <-.
      exists (group_statistics (values k) (values (sub_scaled SWITCH_COST r a)) n),
        k, r, a.
      split; [reflexivity|]. repeat (split; [assumption|]).
      apply group_statistics_aggregates.
    + apply (stored_by_block_with _ _ _ _ _ _ _ _ H1). reflexivity.
    + apply (stored_by_block_with _ _ _ _ _ _ _ _ H2). reflexivity.
    + apply (stored_by_block_with _ _ _ _ _ _ _ _ H3). reflexivity.
Qed.

End AggregationFacts.

Lemma Ok_inj {A : Type} (a b : A) : Ok a = Ok b -> a = b.
Proof. intros H. now injection H. Qed.

Lemma C1_reward_with_switch_cost_witness :
  exists data filtered_df d2 d1 w wo,
    Halfcheetah.equidistant sample_files = Ok data /\
    Halfcheetah.adaptive sample_files 2 0.05 = Ok filtered_df /\
    Halfcheetah.no_switch_cost sample_files false = Ok d2 /\
    Halfcheetah.no_switch_cost sample_files true = Ok d1 /\
    Halfcheetah.baselines (pandas := reference_pandas) sample_files 2 0.05 = Ok (w, wo) /\
    stored_with_switch_cost (pandas := reference_pandas) 2 filtered_df
      "results/num_actions" w "basline0" /\
    stored_with_switch_cost (pandas := reference_pandas) 2 data
      "results/total_steps" w "basline3".
Proof.
  do 6 eexists.
  do 5 (split; [vm_compute; reflexivity|]).
  destruct (C1_reward_with_switch_cost (pandas := reference_pandas) sample_files 2 0.05)
    as (_ & _ & H).
  edestruct H as (H0 & _ & _ & H3);
    [ vm_compute; reflexivity | vm_compute; reflexivity | vm_compute; reflexivity
    | vm_compute; reflexivity | vm_compute; reflexivity | ].
  split; [exact H0 | exact H3].
Defined.

(** C1 as stated fails for halfcheetah's basline3: on the sample files its
    Statistics with switch cost are not those of results/total_reward minus
    SWITCH_COST times results/num_actions. *)
Lemma C1_counterexample :
  exists data w wo,
    Halfcheetah.equidistant sample_files = Ok data /\
    Halfcheetah.baselines (pandas := reference_pandas) sample_files 2 0.05 = Ok (w, wo) /\
    ~ stored_with_switch_cost (pandas := reference_pandas) 2 data
        "results/num_actions" w "basline3".
Proof.
  eexists. eexists. eexists.
  split; [vm_compute; reflexivity|]. split; [vm_compute; reflexivity|].
  intros (st & k & r & a & Hw & Hk & Hr & Ha & Hagg).
  vm_compute in Hw, Hk, Hr, Ha.
  apply Ok_inj in Hw, Hk, Hr, Ha. subst st k r a.
  destruct Hagg as (_ & _ & _ & Hnth).
  destruct (Hnth 0%nat) as [Hm _]; [simpl; lia|].
  vm_compute in Hm. float_discriminate Hm.
Qed.

Lemma C3_statistics_without_switch_cost_witness :
  exists cur' w' wo' keys rewards st,
    RCCar.update_baselines (pandas := reference_pandas) 0.1 rccar_no_switch_cost_csv
      "Switch-Cost-CTRL" [] [] = Ok (cur', (w', wo')) /\
    getitem cur' "new_integration_dt" = Ok keys /\
    getitem cur' "results/total_reward" = Ok rewards /\
    dict_get wo' "Switch-Cost-CTRL" = Ok st /\
    aggregates (pandas := reference_pandas) st (values keys) (values rewards).
Proof.
  destruct (RCCar.update_baselines (pandas := reference_pandas) 0.1
              rccar_no_switch_cost_csv "Switch-Cost-CTRL" [] [])
    as [[cur' [w' wo']]|e] eqn:E; [|vm_compute in E; discriminate E].
  destruct (C3_statistics_without_switch_cost (pandas := reference_pandas) rccar 0.1
              rccar_no_switch_cost_csv "Switch-Cost-CTRL" [] [] cur' w' wo' E)
    as (keys & rewards & st & H).
  exists cur', w', wo', keys, rewards, st. split; [reflexivity | exact H].
Defined.

(** ** Row filters *)

Lemma getitem_loc_mask (df : DataFrame) (mask : list bool) (col : string) :
  getitem (loc_mask df mask) col = (s <- getitem df col ;; Ok (series_select mask s)).
Proof.
  unfold getitem, loc_mask. induction df as [|[c s] df IH]; simpl; [reflexivity|].
  destruct (String.eqb c col); [reflexivity | exact IH].
Qed.

Lemma select_map {A B : Type} (f : A -> B) (mask : list bool) (l : list A) :
  select mask (map f l) = map f (select mask l).
Proof.
  revert l. induction mask as [|b mask IH]; intros [|x l]; simpl; try reflexivity.
  destruct b; simpl; now rewrite IH.
Qed.

Lemma values_series_select (mask : list bool) (s : Series) :
  values (series_select mask s) = select mask (values s).
Proof. destruct s; simpl; [reflexivity | now rewrite select_map]. Qed.

(** A selected entry passed the test that made the mask. *)
Lemma select_In {A : Type} (f : A -> bool) (l : list A) (x : A) :
  In x (select (map f l) l) -> f x = true.
Proof.
  induction l as [|y l IH]; simpl; [contradiction|].
  destruct (f y) eqn:E; simpl; [intros [<-|H]; auto | exact IH].
Qed.

Lemma assign_sub_scaled_other (c : float) (df df' : DataFrame) (dst a b col : string) :
  assign_sub_scaled c df dst a b = Ok df' -> dst <> col ->
  getitem df' col = getitem df col.
Proof.
  unfold assign_sub_scaled. intros H Hne.
  bind_inv H as x Hx. bind_inv H as y Hy. injection H as <-.
  now apply dict_get_set_other.
Qed.

Lemma derived_name_differs (dst col : string) :
  String.prefix "results/reward_with_switch_cost" dst = true ->
  String.prefix "results/reward_with_switch_cost" col = false ->
  dst <> col.
Proof. intros H1 H2 ->. congruence. Qed.

Lemma add_reward_loop_other (SWITCH_COST : float) (l : list nat) (df df' : DataFrame)
    (col : string) :
  for_each l (Reacher.add_reward_with_switch_cost SWITCH_COST) df = Ok df' ->
  String.prefix "results/reward_with_switch_cost" col = false ->
  getitem df' col = getitem df col.
Proof.
  revert df. induction l as [|i l IH]; simpl; intros df H Hcol.
  - now injection H as <-.
  - bind_inv H as d Hd. rewrite (IH _ H Hcol).
    unfold Reacher.add_reward_with_switch_cost in Hd.
    eapply assign_sub_scaled_other; [exact Hd|].
    apply derived_name_differs; [reflexivity | exact Hcol].
Qed.

(** C2 (amended): the rows of the adaptive CSV that enter the
    Switch-Cost-CTRL (basline0) aggregation are, for reacher, exactly those
    with switch_cost == SWITCH_COST; for rccar, exactly those with
    switch_cost == SWITCH_COST and max_time_between_switches ==
    MAX_TIME_BETWEEN_SWITCHES; for halfcheetah, exactly those with
    switch_cost == SWITCH_COST, max_time_between_switches ==
    MAX_TIME_BETWEEN_SWITCHES and time_as_part_of_state == True. *)
Theorem C2_rows_of_switch_cost_ctrl (fs : FileSystem)
    (SWITCH_COST MAX_TIME_BETWEEN_SWITCHES : float) :
  (forall f0 f1 f2 f3,
     Reacher.frames fs SWITCH_COST = Ok (f0, f1, f2, f3) ->
     exists csv c,
       read_csv fs "data/reacher/switch_cost.csv" = Ok csv /\
       getitem csv "switch_cost" = Ok c /\
       rows_selected csv (series_eq c SWITCH_COST) f0) /\
  (forall f0 f1 f2 f3,
     RCCar.frames fs SWITCH_COST MAX_TIME_BETWEEN_SWITCHES = Ok (f0, f1, f2, f3) ->
     exists csv c t,
       read_csv fs "data/rccar/switch_cost.csv" = Ok csv /\
       getitem csv "switch_cost" = Ok c /\
       getitem csv "max_time_between_switches" = Ok t /\
       rows_selected csv
         (mask_and (series_eq c SWITCH_COST) (series_eq t MAX_TIME_BETWEEN_SWITCHES)) f0) /\
  (forall filtered_df,
     Halfcheetah.adaptive fs SWITCH_COST MAX_TIME_BETWEEN_SWITCHES = Ok filtered_df ->
     exists csv c t s,
       read_csv fs "data/halfcheetah/adaptive.csv" = Ok csv /\
       getitem csv "switch_cost" = Ok c /\
       getitem csv "max_time_between_switches" = Ok t /\
       getitem csv "time_as_part_of_state" = Ok s /\
       rows_selected csv
         (mask_and (mask_and (series_eq c SWITCH_COST)
                             (series_eq t MAX_TIME_BETWEEN_SWITCHES))
                   (series_eq_bool s true)) filtered_df).
Proof.
  split; [|split].
  - intros f0 f1 f2 f3 H. unfold Reacher.frames in H.
    bind_inv H as csv Hcsv. bind_inv H as c Hc. bind_inv H as fdf Hloop.
    bind_inv H as de Hde. bind_inv H as de1 Hde1. bind_inv H as dn Hdn.
    bind_inv H as de2 Hde2. bind_inv H as same Hsame. bind_inv H as more Hmore.
    injection H as <- _ _ _.
    exists csv, c. repeat split; try assumption.
    intros col Hcol. rewrite (add_reward_loop_other _ _ _ _ _ Hloop Hcol).
    apply getitem_loc_mask.
  - intros f0 f1 f2 f3 H. unfold RCCar.frames in H.
    bind_inv H as csv Hcsv. bind_inv H as c Hc. bind_inv H as t Ht.
    bind_inv H as fdf Hfdf. bind_inv H as de Hde. bind_inv H as de1 Hde1.
    bind_inv H as same Hsame. bind_inv H as more Hmore. bind_inv H as dn Hdn.
    bind_inv H as r0 Hr0. bind_inv H as a0 Ha0. bind_inv H as dn1 Hdn1.
    injection H as <- _ _ _.
    exists csv, c, t. repeat split; try assumption.
    intros col Hcol.
    rewrite (assign_sub_scaled_other _ _ _ _ _ _ col Hfdf)
      by (apply derived_name_differs; [reflexivity | exact Hcol]).
    apply getitem_loc_mask.
  - intros fdf H. unfold Halfcheetah.adaptive in H.
    bind_inv H as csv Hcsv. bind_inv H as c Hc. bind_inv H as t Ht. bind_inv H as s Hs.
    exists csv, c, t, s. repeat split; try assumption.
    intros col Hcol.
    rewrite (assign_sub_scaled_other _ _ _ _ _ _ col H)
      by (apply derived_name_differs; [reflexivity | exact Hcol]).
    apply getitem_loc_mask.
Qed.

Lemma C2_rows_of_switch_cost_ctrl_witness :
  exists f0 f1 f2 f3 csv c,
    Reacher.frames sample_files 0.1 = Ok (f0, f1, f2, f3) /\
    read_csv sample_files "data/reacher/switch_cost.csv" = Ok csv /\
    getitem csv "switch_cost" = Ok c /\
    rows_selected csv (series_eq c 0.1) f0.
Proof.
  destruct (Reacher.frames sample_files 0.1) as [[[[f0 f1] f2] f3]|e] eqn:E;
    [|vm_compute in E; discriminate E].
  destruct (C2_rows_of_switch_cost_ctrl sample_files 0.1 0.5) as (H & _ & _).
  destruct (H f0 f1 f2 f3 E) as (csv & c & H').
  exists f0, f1, f2, f3, csv, c. split; [reflexivity | exact H'].
Defined.

(** C2 as stated fails for reacher: on the sample files the frame that
    enters the Switch-Cost-CTRL aggregation keeps a row whose
    max_time_between_switches and time_as_part_of_state do not match. *)
Lemma C2_counterexample :
  exists f0 f1 f2 f3 csv c t s,
    Reacher.frames sample_files 0.1 = Ok (f0, f1, f2, f3) /\
    read_csv sample_files "data/reacher/switch_cost.csv" = Ok csv /\
    getitem csv "switch_cost" = Ok c /\
    getitem csv "max_time_between_switches" = Ok t /\
    getitem csv "time_as_part_of_state" = Ok s /\
    ~ rows_selected csv
        (mask_and (mask_and (series_eq c 0.1) (series_eq t 0.5)) (series_eq_bool s true))
        f0.
Proof.
  do 8 eexists.
  do 5 (split; [vm_compute; reflexivity|]).
  intros H. specialize (H "new_integration_dt" eq_refl).
  apply (f_equal (fun r => match r with
                           | Ok s => List.length (values s)
                           | Raise _ => O
                           end)) in H.
  vm_compute in H. discriminate H.
Qed.

(** ** The time-step threshold of halfcheetah *)

Section Threshold.
Context {pandas : Pandas}.

Lemma halfcheetah_baselines_frames (fs : FileSystem)
    (SWITCH_COST MAX_TIME_BETWEEN_SWITCHES : float) (b : Baselines) :
  Halfcheetah.baselines fs SWITCH_COST MAX_TIME_BETWEEN_SWITCHES = Ok b ->
  exists data filtered_df d2 d1,
    Halfcheetah.equidistant fs = Ok data /\
    Halfcheetah.adaptive fs SWITCH_COST MAX_TIME_BETWEEN_SWITCHES = Ok filtered_df /\
    Halfcheetah.no_switch_cost fs false = Ok d2 /\
    Halfcheetah.no_switch_cost fs true = Ok d1.
Proof.
  unfold Halfcheetah.baselines. intros H.
  bind_inv H as data Hdata. bind_inv H as fdf Hfdf. bind_inv H as b0 Hb0.
  apply bind_Ok in H as ([c3 b3] & H3 & H). cbv beta iota in H.
  bind_inv H as d2 Hd2.
  apply bind_Ok in H as ([c2 b2] & H2 & H). cbv beta iota in H.
  bind_inv H as d1 Hd1.
  exists data, fdf, d2, d1. auto.
Qed.

Lemma equidistant_Ok (fs : FileSystem) (data : DataFrame) :
  Halfcheetah.equidistant fs = Ok data ->
  exists csv k,
    read_csv fs "data/halfcheetah/equidistant.csv" = Ok csv /\
    getitem csv "new_integration_dt" = Ok k /\
    data = loc_mask csv (series_ge k dt_threshold).
Proof.
  unfold Halfcheetah.equidistant. intros H.
  bind_inv H as csv Hcsv. bind_inv H as k Hk. injection H as <-.
  exists csv, k. auto.
Qed.

(** No key of the filtered frame is below the threshold. *)
Lemma equidistant_keys (fs : FileSystem) (data : DataFrame) (kd : Series) :
  Halfcheetah.equidistant fs = Ok data ->
  getitem data "new_integration_dt" = Ok kd ->
  forall x, In x (values kd) -> (x <? dt_threshold)%float = false.
Proof.
  intros H Hkd x Hx.
  apply equidistant_Ok in H as (csv & k & _ & Hk & ->).
  rewrite getitem_loc_mask, Hk in Hkd. simpl in Hkd. injection Hkd as <-.
  rewrite values_series_select in Hx. unfold series_ge in Hx.
  apply (select_In (fun x => (dt_threshold <=? x)%float)) in Hx.
  now apply float_leb_not_ltb.
Qed.

Lemma stored_by_block_keys (env penalty : string) (SWITCH_COST : float) (df : DataFrame)
    (st' st : Statistics) :
  stored_by_block env penalty SWITCH_COST df st' st ->
  exists k, getitem df "new_integration_dt" = Ok k /\
            distinct_values_of (values k) (xs st') /\
            distinct_values_of (values k) (xs st).
Proof.
  intros (k & r & a & n & Hk & _ & _ & _ & -> & ->).
  exists k. split; [exact Hk|]. split; apply group_keys_distinct_values.
Qed.

Lemma mean_over_evals_keys (df : DataFrame) :
  getitem (Reacher.mean_over_evals df) "new_integration_dt" =
  getitem df "new_integration_dt".
Proof.
  unfold Reacher.mean_over_evals, getitem, setitem.
  now rewrite !dict_get_set_other by discriminate.
Qed.

(** C9: only halfcheetah has a threshold on the time step.  The frame of
    its equidistant runs holds the rows of the CSV with new_integration_dt
    >= 0.05/30: a row with new_integration_dt < 0.05/30 is masked out
    before any aggregation, no such row is left in the frame, and
    the basline3 Statistics of halfcheetah (with and without switch cost)
    have no group key below 0.05/30.  For reacher and rccar every
    non-missing new_integration_dt of the naive-model CSV, however small,
    is the key of a group of the basline3 Statistics. *)
Theorem C9_halfcheetah_dt_threshold (fs : FileSystem)
    (SWITCH_COST MAX_TIME_BETWEEN_SWITCHES : float) :
  (forall data,
     Halfcheetah.equidistant fs = Ok data ->
     exists csv k,
       read_csv fs "data/halfcheetah/equidistant.csv" = Ok csv /\
       getitem csv "new_integration_dt" = Ok k /\
       (forall col, getitem data col =
                      (s <- getitem csv col ;;
                       Ok (series_select (series_ge k dt_threshold) s))) /\
       (forall i x, nth_error (values k) i = Some x ->
                    (x <? dt_threshold)%float = true ->
                    nth_error (series_ge k dt_threshold) i = Some false) /\
       (forall kd, getitem data "new_integration_dt" = Ok kd ->
                   forall x, In x (values kd) -> (x <? dt_threshold)%float = false)) /\
  (forall w wo,
     Halfcheetah.baselines fs SWITCH_COST MAX_TIME_BETWEEN_SWITCHES = Ok (w, wo) ->
     exists st' st,
       dict_get w (display "basline3") = Ok st' /\
       dict_get wo (display "basline3") = Ok st /\
       (forall x, In x (xs st') -> (x <? dt_threshold)%float = false) /\
       (forall x, In x (xs st) -> (x <? dt_threshold)%float = false)) /\
  (forall w wo,
     Reacher.baselines fs SWITCH_COST = Ok (w, wo) ->
     exists csv k st' st,
       read_csv fs "data/reacher/naive_model.csv" = Ok csv /\
       getitem csv "new_integration_dt" = Ok k /\
       dict_get w (display "basline3") = Ok st' /\
       dict_get wo (display "basline3") = Ok st /\
       distinct_values_of (values k) (xs st') /\
       distinct_values_of (values k) (xs st)) /\
  (forall w wo,
     RCCar.baselines fs SWITCH_COST MAX_TIME_BETWEEN_SWITCHES = Ok (w, wo) ->
     exists csv k st' st,
       read_csv fs "data/rccar/naive_model.csv" = Ok csv /\
       getitem csv "new_integration_dt" = Ok k /\
       dict_get w (display "basline3") = Ok st' /\
       dict_get wo (display "basline3") = Ok st /\
       distinct_values_of (values k) (xs st') /\
       distinct_values_of (values k) (xs st)).
Proof.
  split; [|split; [|split]].
  - intros data H.
    destruct (equidistant_Ok _ _ H) as (csv & k & Hcsv & Hk & ->).
    exists csv, k. split; [exact Hcsv|]. split; [exact Hk|]. split; [|split].
    + intros col. apply getitem_loc_mask.
    + intros i x Hi Hx. unfold series_ge.
      rewrite nth_error_map, Hi. simpl. now rewrite (float_ltb_not_leb _ _ Hx).
    + intros kd Hkd. eapply equidistant_keys; eassumption.
  - intros w wo H.
    destruct (halfcheetah_baselines_frames _ _ _ _ H)
      as (data & fdf & d2 & d1 & Hdata & Hfdf & Hd2 & Hd1).
    destruct (halfcheetah_baselines_Ok _ _ _ _ _ _ _ _ _ Hdata Hfdf Hd2 Hd1 H)
      as (s0 & s1 & s2 & s3 & t0 & t1 & t2 & t3 & _ & _ & H3 & _ & _ & -> & ->).
    apply stored_by_block_keys in H3 as (k & Hk & (_ & Hs & _) & (_ & Ht & _)).
    exists s3, t3. split; [reflexivity|]. split; [reflexivity|].
    split; intros x Hx; eapply equidistant_keys; try eassumption.
    + now apply Hs.
    + now apply Ht.
  - intros w wo H. rewrite reacher_baselines_eq in H.
    apply bind_Ok in H as ([[[f0 f1] f2] f3] & Hf & H). cbv beta iota in H.
    apply four_calls_Ok in H
      as (s0 & s1 & s2 & s3 & t0 & t1 & t2 & t3 & _ & _ & _ & H3 & -> & ->).
    apply stored_by_block_keys in H3 as (k & Hk & Hs & Ht).
    simpl in Hk. rewrite mean_over_evals_keys in Hk.
    unfold Reacher.frames in Hf.
    bind_inv Hf as csv Hcsv. bind_inv Hf as c Hc. bind_inv Hf as fdf Hloop.
    bind_inv Hf as de Hde. bind_inv Hf as de1 Hde1. bind_inv Hf as dn Hdn.
    bind_inv Hf as de2 Hde2. bind_inv Hf as same Hsame. bind_inv Hf as more Hmore.
    injection Hf as _ _ _ <-.
    exists dn, k, s3, t3. repeat (split; [first [assumption | reflexivity]|]). exact Ht.
  - intros w wo H. rewrite rccar_baselines_eq in H.
    apply bind_Ok in H as ([[[f0 f1] f2] f3] & Hf & H). cbv beta iota in H.
    apply four_calls_Ok in H
      as (s0 & s1 & s2 & s3 & t0 & t1 & t2 & t3 & _ & _ & _ & H3 & -> & ->).
    apply stored_by_block_keys in H3 as (k & Hk & Hs & Ht).
    simpl in Hk.
    unfold RCCar.frames in Hf.
    bind_inv Hf as csv Hcsv. bind_inv Hf as c Hc. bind_inv Hf as t Htt.
    bind_inv Hf as fdf Hfdf. bind_inv Hf as de Hde. bind_inv Hf as de1 Hde1.
    bind_inv Hf as same Hsame. bind_inv Hf as more Hmore. bind_inv Hf as dn Hdn.
    bind_inv Hf as r0 Hr0. bind_inv Hf as a0 Ha0. bind_inv Hf as dn1 Hdn1.
    injection Hf as _ _ _ <-.
    rewrite (assign_sub_scaled_other _ _ _ _ _ _ "new_integration_dt" Hdn1) in Hk
      by discriminate.
    unfold getitem, setitem in Hk.
    rewrite !dict_get_set_other in Hk by discriminate.
    exists dn, k, s3, t3. repeat (split; [first [assumption | reflexivity]|]). exact Ht.
Qed.

End Threshold.

Lemma C9_halfcheetah_dt_threshold_witness :
  exists w wo st,
    Halfcheetah.baselines (pandas := reference_pandas) sample_files 2 0.05 = Ok (w, wo) /\
    dict_get wo (display "basline3") = Ok st /\
    (forall x, In x (xs st) -> (x <? dt_threshold)%float = false) /\
    exists w' wo' st' k,
      Reacher.baselines (pandas := reference_pandas) sample_files 0.1 = Ok (w', wo') /\
      getitem reacher_naive_model_csv "new_integration_dt" = Ok k /\
      In 0.001%float (values k) /\
      dict_get wo' (display "basline3") = Ok st' /\
      distinct_values_of (values k) (xs st').
Proof.
  destruct (C9_halfcheetah_dt_threshold (pandas := reference_pandas) sample_files 2 0.05)
    as (_ & Hh & _ & _).
  destruct (C9_halfcheetah_dt_threshold (pandas := reference_pandas) sample_files 0.1 0.5)
    as (_ & _ & Hr & _).
  do 3 eexists. split; [vm_compute; reflexivity|].
  edestruct Hh as (s3 & t3 & Hs3 & Ht3 & _ & Hx); [vm_compute; reflexivity|].
  vm_compute in Ht3. apply Ok_inj in Ht3. subst t3.
  split; [vm_compute; reflexivity|]. split; [exact Hx|].
  edestruct Hr as (csv & k & s & t & Hcsv & Hk & Hs & Ht & _ & Hd);
    [vm_compute; reflexivity|].
  vm_compute in Hcsv. apply Ok_inj in Hcsv. subst csv.
  vm_compute in Hk. apply Ok_inj in Hk. subst k.
  vm_compute in Ht. apply Ok_inj in Ht. subst t.
  do 4 eexists. split; [vm_compute; reflexivity|].
  split; [vm_compute; reflexivity|].
  split; [simpl; auto|].
  split; [vm_compute; reflexivity|]. exact Hd.
Defined.

(** ** The grid of axes *)

Lemma nth_error_replace_same {A : Type} (n : nat) (x y : A) (l : list A) :
  nth_error l n = Some y -> nth_error (replace_nth n x l) n = Some x.
Proof.
  revert n. induction l as [|z l IH]; intros [|n]; simpl; try discriminate; auto.
Qed.

Lemma replace_nth_twice {A : Type} (n : nat) (x y : A) (l : list A) :
  replace_nth n x (replace_nth n y l) = replace_nth n x l.
Proof.
  revert n. induction l as [|z l IH]; intros [|n]; simpl; try reflexivity.
  now rewrite IH.
Qed.

Lemma replace_nth_same {A : Type} (n : nat) (x : A) (l : list A) :
  nth_error l n = Some x -> replace_nth n x l = l.
Proof.
  revert n. induction l as [|z l IH]; intros [|n]; simpl; try discriminate.
  - now intros [= ->].
  - intros H. now rewrite IH.
Qed.

Lemma nth_of_nth_error {A : Type} (n : nat) (x d : A) (l : list A) :
  nth_error l n = Some x -> nth n l d = x.
Proof. intros H. now apply nth_error_nth. Qed.

Lemma call_on_row (ax : Grid) (r c : nat) (row : list Axes) (a : Axes)
    (method : Axes -> result Axes) :
  nth_error ax r = Some row -> nth_error row c = Some a ->
  call_on ax r c method =
    (a' <- method a ;; Ok (replace_nth r (replace_nth c a' row) ax)).
Proof.
  intros Hr Hc. unfold call_on, ax_at. rewrite Hr, Hc. simpl.
  now rewrite (nth_of_nth_error _ _ _ _ Hr).
Qed.

Lemma on_axes_row (ax : Grid) (r c : nat) (row : list Axes) (a : Axes)
    (method : Axes -> Axes) :
  nth_error ax r = Some row -> nth_error row c = Some a ->
  on_axes ax r c method = Ok (replace_nth r (replace_nth c (method a) row) ax).
Proof.
  intros Hr Hc. unfold on_axes, ax_at. rewrite Hr, Hc. simpl.
  now rewrite (nth_of_nth_error _ _ _ _ Hr).
Qed.

(** A loop whose every turn works on the axes [ax[r, c]] is a loop on
    these axes. *)
Lemma for_each_on_cell {A : Type} (l : list A) (r c : nat)
    (body : A -> Grid -> result Grid) (cell : A -> Axes -> result Axes) :
  (forall x ax row a, nth_error ax r = Some row -> nth_error row c = Some a ->
     body x ax = (a' <- cell x a ;; Ok (replace_nth r (replace_nth c a' row) ax))) ->
  forall ax row a, nth_error ax r = Some row -> nth_error row c = Some a ->
    for_each l body ax =
      (a' <- for_each l cell a ;; Ok (replace_nth r (replace_nth c a' row) ax)).
Proof.
  intros Hbody. induction l as [|x l IH]; intros ax row a Hr Hc; simpl.
  - now rewrite (replace_nth_same c a row Hc), (replace_nth_same r row ax Hr).
  - rewrite (Hbody x ax row a Hr Hc).
    destruct (cell x a) as [a1|e]; simpl; [|reflexivity].
    rewrite (IH _ (replace_nth c a1 row) a1).
    + destruct (for_each l cell a1) as [a2|e]; simpl; [|reflexivity].
      now rewrite !replace_nth_twice.
    + eapply nth_error_replace_same, Hr.
    + eapply nth_error_replace_same, Hc.
Qed.

Lemma for_each_in_cell {A : Type} (l : list A) (r c : nat)
    (body : A -> Grid -> result Grid) (cell : A -> Axes -> result Axes)
    (ax : Grid) (row : list Axes) (a : Axes) :
  nth_error ax r = Some row -> nth_error row c = Some a ->
  (forall x ax row a, nth_error ax r = Some row -> nth_error row c = Some a ->
     body x ax = (a' <- cell x a ;; Ok (replace_nth r (replace_nth c a' row) ax))) ->
  for_each l body ax =
    (a' <- for_each l cell a ;; Ok (replace_nth r (replace_nth c a' row) ax)).
Proof. intros Hr Hc Hbody. now apply for_each_on_cell. Qed.

Lemma on_axes_put (ax : Grid) (r c : nat) (row : list Axes) (a0 a : Axes)
    (method : Axes -> Axes) :
  nth_error ax r = Some row -> nth_error row c = Some a0 ->
  on_axes (replace_nth r (replace_nth c a row) ax) r c method =
    Ok (replace_nth r (replace_nth c (method a) row) ax).
Proof.
  intros Hr Hc.
  rewrite (on_axes_row _ r c (replace_nth c a row) a).
  - now rewrite !replace_nth_twice.
  - eapply nth_error_replace_same, Hr.
  - eapply nth_error_replace_same, Hc.
Qed.

Lemma call_on_put (ax : Grid) (r c : nat) (row : list Axes) (a0 a : Axes)
    (method : Axes -> result Axes) :
  nth_error ax r = Some row -> nth_error row c = Some a0 ->
  call_on (replace_nth r (replace_nth c a row) ax) r c method =
    (a' <- method a ;; Ok (replace_nth r (replace_nth c a' row) ax)).
Proof.
  intros Hr Hc.
  rewrite (call_on_row _ r c (replace_nth c a row) a).
  - destruct (method a); simpl; [|reflexivity]. now rewrite !replace_nth_twice.
  - eapply nth_error_replace_same, Hr.
  - eapply nth_error_replace_same, Hc.
Qed.

(** One turn of the loop of row [r] works on the axes of its column only. *)
Lemma row_turn_cell (r index : nat) (title : string) (baselines : dict Statistics)
    (ax : Grid) (row : list Axes) (a : Axes) :
  r < 4 -> nth_error ax r = Some row -> nth_error row index = Some a ->
  row_turn r (index, (title, baselines)) ax =
    (a' <- row_cell r index title baselines a ;;
     Ok (replace_nth r (replace_nth index a' row) ax)).
Proof.
  intros Hlt Hr Hc. unfold row_cell.
  destruct r as [|[|[|[|r]]]]; [| | | |lia];
    unfold row_turn, reward_turn, samples_turn, compute_turn, physical_time_turn.
  - rewrite (for_each_in_cell baselines 0 index _ (cell_step 0 title) ax row a Hr Hc).
    + destruct (for_each baselines (cell_step 0 title) a) as [a1|e]; cbn [bind];
        [|reflexivity].
      rewrite (on_axes_put _ _ _ _ _ _ _ Hr Hc). cbn [bind].
      rewrite (on_axes_put _ _ _ _ _ _ _ Hr Hc). cbn [bind].
      unfold cell_finish. destruct (Nat.eqb index 0); [|reflexivity].
      now rewrite (on_axes_put _ _ _ _ _ _ _ Hr Hc).
    + intros [name stat] g rw a0 Hr0 Hc0.
      rewrite (call_on_row _ _ _ _ _ _ Hr0 Hc0). unfold cell_step.
      destruct (plot_curve name stat (Ok (Some (ys_mean stat))) a0) as [a1|e];
        cbn [bind]; [|reflexivity].
      now rewrite (call_on_put _ _ _ _ _ _ _ Hr0 Hc0).
  - rewrite (for_each_in_cell baselines 1 index _ (cell_step 1 title) ax row a Hr Hc).
    + destruct (for_each baselines (cell_step 1 title) a) as [a1|e]; cbn [bind];
        [|reflexivity].
      rewrite (on_axes_put _ _ _ _ _ _ _ Hr Hc). cbn [bind].
      rewrite (on_axes_put _ _ _ _ _ _ _ Hr Hc). cbn [bind].
      unfold cell_finish. destruct (Nat.eqb index 0); [|reflexivity].
      now rewrite (on_axes_put _ _ _ _ _ _ _ Hr Hc).
    + intros [name stat] g rw a0 Hr0 Hc0. unfold cell_step, row_metric.
      rewrite (call_on_row _ _ _ _ _ _ Hr0 Hc0).
      destruct (dict_get REVERT_BASELINE_NAMES name) as [k|e]; cbn [bind]; [|reflexivity].
      destruct (compute_num_measurements k stat) as [y|e]; reflexivity.
  - rewrite (for_each_in_cell baselines 2 index _ (cell_step 2 title) ax row a Hr Hc).
    + destruct (for_each baselines (cell_step 2 title) a) as [a1|e]; cbn [bind];
        [|reflexivity].
      rewrite (on_axes_put _ _ _ _ _ _ _ Hr Hc). cbn [bind].
      rewrite (on_axes_put _ _ _ _ _ _ _ Hr Hc). cbn [bind].
      unfold cell_finish. destruct (Nat.eqb index 0); [|reflexivity].
      now rewrite (on_axes_put _ _ _ _ _ _ _ Hr Hc).
    + intros [name stat] g rw a0 Hr0 Hc0. unfold cell_step, row_metric.
      rewrite (call_on_row _ _ _ _ _ _ Hr0 Hc0).
      destruct (dict_get REVERT_BASELINE_NAMES name) as [k|e]; reflexivity.
  - rewrite (for_each_in_cell baselines 3 index _ (cell_step 3 title) ax row a Hr Hc).
    + destruct (for_each baselines (cell_step 3 title) a) as [a1|e]; cbn [bind];
        [|reflexivity].
      rewrite (on_axes_put _ _ _ _ _ _ _ Hr Hc). cbn [bind].
      rewrite (on_axes_put _ _ _ _ _ _ _ Hr Hc). cbn [bind].
      rewrite (on_axes_put _ _ _ _ _ _ _ Hr Hc). cbn [bind].
      unfold cell_finish. destruct (Nat.eqb index 0); [|reflexivity].
      now rewrite (on_axes_put _ _ _ _ _ _ _ Hr Hc).
    + intros [name stat] g rw a0 Hr0 Hc0. unfold cell_step, row_metric.
      rewrite (call_on_row _ _ _ _ _ _ Hr0 Hc0).
      destruct (dict_get REVERT_BASELINE_NAMES name) as [k|e]; reflexivity.
Qed.

(** The loop of row [r] over three systems fills the three axes of the row. *)
Lemma row_loop_three (r : nat) (t0 t1 t2 : string) (b0 b1 b2 : dict Statistics)
    (ax : Grid) (x0 x1 x2 : Axes) :
  r < 4 -> nth_error ax r = Some [x0; x1; x2] ->
  row_loop r [(t0, b0); (t1, b1); (t2, b2)] ax =
    (a0 <- row_cell r 0 t0 b0 x0 ;;
     a1 <- row_cell r 1 t1 b1 x1 ;;
     a2 <- row_cell r 2 t2 b2 x2 ;;
     Ok (replace_nth r [a0; a1; a2] ax)).
Proof.
  intros Hlt Hrow.
  assert (E : row_loop r [(t0, b0); (t1, b1); (t2, b2)] ax =
              (g <- row_turn r (0, (t0, b0)) ax ;;
               g <- row_turn r (1, (t1, b1)) g ;;
               g <- row_turn r (2, (t2, b2)) g ;; Ok g)).
  { destruct r as [|[|[|[|r]]]]; [| | | |lia]; reflexivity. }
  rewrite E. clear E.
  rewrite (row_turn_cell r 0 t0 b0 ax _ x0 Hlt Hrow eq_refl).
  destruct (row_cell r 0 t0 b0 x0) as [a0|e]; cbn [bind]; [|reflexivity].
  erewrite (row_turn_cell r 1 t1 b1 _ _ x1 Hlt);
    [| eapply nth_error_replace_same, Hrow | reflexivity].
  destruct (row_cell r 1 t1 b1 x1) as [a1|e]; cbn [bind]; [|reflexivity].
  rewrite replace_nth_twice.
  erewrite (row_turn_cell r 2 t2 b2 _ _ x2 Hlt);
    [| eapply nth_error_replace_same, Hrow | reflexivity].
  destruct (row_cell r 2 t2 b2 x2) as [a2|e]; cbn [bind]; [|reflexivity].
  now rewrite replace_nth_twice.
Qed.

(** ** The figure *)

Lemma draw_three (t0 t1 t2 : string) (b0 b1 b2 : dict Statistics) (fig : Figure) :
  draw [(t0, b0); (t1, b1); (t2, b2)] = Ok fig ->
  exists a00 a01 a02 a10 a11 a12 a20 a21 a22 a30 a31 a32,
    (row_cell 0 0 t0 b0 new_axes = Ok a00 /\
     row_cell 0 1 t1 b1 new_axes = Ok a01 /\
     row_cell 0 2 t2 b2 new_axes = Ok a02) /\
    (row_cell 1 0 t0 b0 new_axes = Ok a10 /\
     row_cell 1 1 t1 b1 new_axes = Ok a11 /\
     row_cell 1 2 t2 b2 new_axes = Ok a12) /\
    (row_cell 2 0 t0 b0 new_axes = Ok a20 /\
     row_cell 2 1 t1 b1 new_axes = Ok a21 /\
     row_cell 2 2 t2 b2 new_axes = Ok a22) /\
    (row_cell 3 0 t0 b0 new_axes = Ok a30 /\
     row_cell 3 1 t1 b1 new_axes = Ok a31 /\
     row_cell 3 2 t2 b2 new_axes = Ok a32) /\
    fig_axes fig = [[a00; a01; a02]; [a10; a11; a12]; [a20; a21; a22]; [a30; a31; a32]].
Proof.
  unfold draw. intros H.
  change reward_row with (row_loop 0) in H.
  change samples_row with (row_loop 1) in H.
  change compute_row with (row_loop 2) in H.
  change physical_time_row with (row_loop 3) in H.
  bind_inv H as g0 H0. bind_inv H as g1 H1. bind_inv H as g2 H2. bind_inv H as g3 H3.
  injection H as <-.
  rewrite (row_loop_three 0 _ _ _ _ _ _ _ new_axes new_axes new_axes) in H0
    by (first [lia | reflexivity]).
  bind_inv H0 as a00 E00. bind_inv H0 as a01 E01. bind_inv H0 as a02 E02.
  injection H0 as <-. cbn [subplots repeat replace_nth] in H1.
  rewrite (row_loop_three 1 _ _ _ _ _ _ _ new_axes new_axes new_axes) in H1
    by (first [lia | reflexivity]).
  bind_inv H1 as a10 E10. bind_inv H1 as a11 E11. bind_inv H1 as a12 E12.
  injection H1 as <-. cbn [replace_nth] in H2.
  rewrite (row_loop_three 2 _ _ _ _ _ _ _ new_axes new_axes new_axes) in H2
    by (first [lia | reflexivity]).
  bind_inv H2 as a20 E20. bind_inv H2 as a21 E21. bind_inv H2 as a22 E22.
  injection H2 as <-. cbn [replace_nth] in H3.
  rewrite (row_loop_three 3 _ _ _ _ _ _ _ new_axes new_axes new_axes) in H3
    by (first [lia | reflexivity]).
  bind_inv H3 as a30 E30. bind_inv H3 as a31 E31. bind_inv H3 as a32 E32.
  injection H3 as <-.
  exists a00, a01, a02, a10, a11, a12, a20, a21, a22, a30, a31, a32.
  repeat split; assumption.
Qed.

(** Every pair of axes of the figure is what its row made of fresh axes. *)
Lemma draw_three_cells (systems : systems_t) (fig : Figure) :
  List.length systems = 3 ->
  draw systems = Ok fig ->
  List.length (fig_axes fig) = 4 /\
  Forall (fun row => List.length row = 3) (fig_axes fig) /\
  (forall r c a, ax_at (fig_axes fig) r c = Ok a ->
     r < 4 /\ exists title baselines,
       nth_error systems c = Some (title, baselines) /\
       row_cell r c title baselines new_axes = Ok a) /\
  (forall r c title baselines,
     r < 4 -> nth_error systems c = Some (title, baselines) ->
     exists a, ax_at (fig_axes fig) r c = Ok a /\
               row_cell r c title baselines new_axes = Ok a).
Proof.
  intros Hlen H.
  destruct systems as [|[t0 b0] [|[t1 b1] [|[t2 b2] [|]]]]; try discriminate Hlen.
  apply draw_three in H
    as (a00 & a01 & a02 & a10 & a11 & a12 & a20 & a21 & a22 & a30 & a31 & a32
        & (E00 & E01 & E02) & (E10 & E11 & E12) & (E20 & E21 & E22)
        & (E30 & E31 & E32) & ->).
  split; [reflexivity|]. split; [repeat constructor|]. split.
  - intros r c a Ha.
    destruct r as [|[|[|[|r]]]]; [| | | |destruct r; discriminate Ha];
      (split; [lia|]);
      (destruct c as [|[|[|c]]]; [| | |destruct c; discriminate Ha]);
      apply Ok_inj in Ha; subst a; do 2 eexists; (split; [reflexivity|]); assumption.
  - intros r c title baselines Hr Hc.
    destruct r as [|[|[|[|r]]]]; [| | | |lia];
      (destruct c as [|[|[|c]]]; [| | |destruct c; discriminate Hc]);
      injection Hc as <- <-; eexists; (split; [reflexivity|]); assumption.
Qed.

Lemma plot_curve_Ok (name : string) (stat : Statistics) (y : result (option ndarray))
    (a a' : Axes) :
  plot_curve name stat y a = Ok a' ->
  exists yv ls c,
    y = Ok (Some yv) /\
    a' = plot {| line_x := scalar_div 1 (xs stat); line_y := yv; line_label := name;
                 line_linewidth := LINE_WIDTH; line_linestyle := ls;
                 line_color := c |} a.
Proof.
  unfold plot_curve. intros H.
  bind_inv H as yo Hy. bind_inv H as ls Hls. bind_inv H as c Hc.
  destruct yo as [yv|]; [|discriminate H]. injection H as <-.
  exists yv, ls, c. auto.
Qed.

(** What one baseline adds to the axes of row [r]. *)
Lemma cell_step_Ok (r : nat) (title : string) (b : string * Statistics) (a a' : Axes) :
  cell_step r title b a = Ok a' ->
  exists l, curve_of r title l b /\
            ax_lines a' = (ax_lines a ++ [l])%list /\
            ax_xscale a' = ax_xscale a /\ ax_yscale a' = ax_yscale a /\
            ax_title a' = ax_title a.
Proof.
  destruct b as [name stat]. unfold cell_step. intros H.
  assert (Hplot : forall y a1,
            plot_curve name stat y a = Ok a1 -> y = row_metric r title name stat ->
            exists l, curve_of r title l (name, stat) /\
                      ax_lines a1 = (ax_lines a ++ [l])%list /\
                      ax_xscale a1 = ax_xscale a /\ ax_yscale a1 = ax_yscale a /\
                      ax_title a1 = ax_title a).
  { intros y a1 Hp Hy. apply plot_curve_Ok in Hp as (yv & ls & c & Hyv & ->).
    eexists. split; [|simpl; auto].
    unfold curve_of. simpl. rewrite <- Hy. auto. }
  destruct r as [|[|r]].
  - bind_inv H as a1 H1. bind_inv H as c Hc. injection H as <-.
    apply Hplot in H1; [|reflexivity]. exact H1.
  - bind_inv H as k Hk. bind_inv H as y Hy. eapply Hplot; [exact H | reflexivity].
  - eapply Hplot; [exact H | reflexivity].
Qed.

Lemma cell_loop_Ok (r : nat) (title : string) (baselines : dict Statistics) (a a' : Axes) :
  for_each baselines (cell_step r title) a = Ok a' ->
  exists ls, Forall2 (curve_of r title) ls baselines /\
             ax_lines a' = (ax_lines a ++ ls)%list /\
             ax_xscale a' = ax_xscale a /\ ax_yscale a' = ax_yscale a /\
             ax_title a' = ax_title a.
Proof.
  revert a. induction baselines as [|b baselines IH]; simpl; intros a H.
  - injection H as <-. exists []. rewrite app_nil_r. auto.
  - bind_inv H as a1 H1.
    apply cell_step_Ok in H1 as (l & Hl & Hls & Hx & Hy & Ht).
    apply IH in H as (ls & Hf & Hls' & Hx' & Hy' & Ht').
    exists (l :: ls). split; [now constructor|].
    rewrite Hls', Hls, Hx', Hy', Ht', <- app_assoc. auto.
Qed.

(** The axes of row [r] and column [c], drawn on fresh axes. *)
Lemma row_cell_Ok (r c : nat) (title : string) (baselines : dict Statistics) (a : Axes) :
  r < 4 -> row_cell r c title baselines new_axes = Ok a ->
  Forall2 (curve_of r title) (ax_lines a) baselines /\
  ax_xscale a = "log" /\ ax_yscale a = yscale_of_row r /\
  (r = 0 -> ax_title a = Some title).
Proof.
  unfold row_cell. intros Hr H. bind_inv H as a1 H1. injection H as <-.
  apply cell_loop_Ok in H1 as (ls & Hf & Hls & Hx & Hy & Ht). simpl in Hls. subst ls.
  destruct r as [|[|[|[|r]]]]; [| | | |lia]; unfold cell_finish;
    destruct (Nat.eqb c 0); simpl; rewrite ?Hy; repeat split; auto; discriminate.
Qed.

(** ** The whole script *)

Section MainFacts.
Context {pandas : Pandas}.

Lemma main_eq (fs : FileSystem) :
  main fs =
    (r <- Reacher.baselines fs 0.1 ;;
     c <- RCCar.baselines fs 0.1 0.5 ;;
     h <- Halfcheetah.baselines fs 2 0.05 ;;
     fig <- draw (systems_of r c h) ;;
     Ok (systems_of r c h, fig)).
Proof.
  unfold main.
  destruct (Reacher.baselines fs 0.1) as [[wr wor]|e]; [|reflexivity]. cbn [bind].
  destruct (RCCar.baselines fs 0.1 0.5) as [[wc woc]|e]; [|reflexivity]. cbn [bind].
  destruct (Halfcheetah.baselines fs 2 0.05) as [[wh woh]|e]; reflexivity.
Qed.

Lemma main_Ok (fs : FileSystem) (systems : systems_t) (fig : Figure) :
  main fs = Ok (systems, fig) ->
  exists r c h,
    Reacher.baselines fs 0.1 = Ok r /\
    RCCar.baselines fs 0.1 0.5 = Ok c /\
    Halfcheetah.baselines fs 2 0.05 = Ok h /\
    systems = systems_of r c h /\
    draw systems = Ok fig.
Proof.
  rewrite main_eq. intros H.
  bind_inv H as r Hr. bind_inv H as c Hc. bind_inv H as h Hh. bind_inv H as f Hf.
  injection H as <- <-. exists r, c, h. auto.
Qed.

(** C4 (amended): every subplot has a logarithmic x axis; the y axis is
    logarithmic in the rows of sample count, compute and physical time, and
    keeps the default linear scale in the reward row, where set_yscale is
    not called. *)
Theorem C4_axis_scales (fs : FileSystem) (systems : systems_t) (fig : Figure) :
  main fs = Ok (systems, fig) ->
  forall r c a, ax_at (fig_axes fig) r c = Ok a ->
    ax_xscale a = "log" /\ ax_yscale a = yscale_of_row r.
Proof.
  intros H r c a Ha.
  apply main_Ok in H as (br & bc & bh & _ & _ & _ & -> & Hdraw).
  destruct (draw_three_cells (systems_of br bc bh) fig eq_refl Hdraw) as (_ & _ & Hcells & _).
  destruct (Hcells r c a Ha) as (Hr & title & baselines & _ & Hcell).
  apply row_cell_Ok in Hcell; [tauto | exact Hr].
Qed.

(** C5: the figure has exactly four rows of three axes; the columns are the
    environments reacher, rccar, halfcheetah in this order, each with the
    Statistics without switch cost of its environment; in column c the rows
    0, 1, 2, 3 hold, for every baseline of that environment and in the
    order of its dict, one curve of the reward (ys_mean), of the sample
    count, of the compute and of the physical time, whose x values are the
    element-wise inverse 1 / xs of the Statistics. *)
Theorem C5_rows_columns_and_frequency (fs : FileSystem) (systems : systems_t)
    (fig : Figure) :
  main fs = Ok (systems, fig) ->
  List.length (fig_axes fig) = 4 /\
  Forall (fun row => List.length row = 3) (fig_axes fig) /\
  map fst systems = titles /\
  (exists r c h,
     Reacher.baselines fs 0.1 = Ok r /\
     RCCar.baselines fs 0.1 0.5 = Ok c /\
     Halfcheetah.baselines fs 2 0.05 = Ok h /\
     map snd systems = [snd r; snd c; snd h]) /\
  (forall r c title baselines,
     r < 4 -> nth_error systems c = Some (title, baselines) ->
     exists a, ax_at (fig_axes fig) r c = Ok a /\
               Forall2 (curve_of r title) (ax_lines a) baselines /\
               (r = 0 -> ax_title a = Some title)).
Proof.
  intros H.
  apply main_Ok in H as (br & bc & bh & Hr & Hc & Hh & -> & Hdraw).
  destruct (draw_three_cells (systems_of br bc bh) fig eq_refl Hdraw) as (Hrows & Hcols & _ & Hcells).
  split; [exact Hrows|]. split; [exact Hcols|]. split; [reflexivity|]. split.
  - exists br, bc, bh. auto.
  - intros r c title baselines Hlt Hnth.
    destruct (Hcells r c title baselines Hlt Hnth) as (a & Ha & Hcell).
    exists a. split; [exact Ha|].
    apply row_cell_Ok in Hcell; [tauto | exact Hlt].
Qed.

(** C8: systems holds, for each environment, the dict without switch cost
    and nothing of the dict with switch cost, and the figure is drawn from
    systems alone: two runs of the script whose three dicts without switch
    cost agree end the same way, with the same systems and figure or the
    same exception, whatever their Statistics with switch cost are. *)
Theorem C8_with_switch_cost_not_plotted (fs fs' : FileSystem) (r c h r' c' h' : Baselines) :
  Reacher.baselines fs 0.1 = Ok r ->
  RCCar.baselines fs 0.1 0.5 = Ok c ->
  Halfcheetah.baselines fs 2 0.05 = Ok h ->
  Reacher.baselines fs' 0.1 = Ok r' ->
  RCCar.baselines fs' 0.1 0.5 = Ok c' ->
  Halfcheetah.baselines fs' 2 0.05 = Ok h' ->
  snd r = snd r' -> snd c = snd c' -> snd h = snd h' ->
  main fs = main fs' /\
  main fs = (fig <- draw (systems_of r c h) ;; Ok (systems_of r c h, fig)) /\
  systems_of r c h =
    [ ("Reacher " ++ nl ++ " [Duration = 2 sec]", snd r);
      ("RC Car " ++ nl ++ " [Duration = 4 sec]", snd c);
      ("Halfcheetah " ++ nl ++ " [Duration = 10 sec]", snd h) ].
Proof.
  intros Hr Hc Hh Hr' Hc' Hh' Er Ec Eh.
  rewrite !main_eq, Hr, Hc, Hh, Hr', Hc', Hh'. cbn [bind].
  unfold systems_of. rewrite <- Er, <- Ec, <- Eh. repeat split; reflexivity.
Qed.

End MainFacts.

Lemma C4_axis_scales_witness :
  exists systems fig a0 a1,
    main (pandas := reference_pandas) sample_files = Ok (systems, fig) /\
    ax_at (fig_axes fig) 0 1 = Ok a0 /\
    ax_at (fig_axes fig) 3 2 = Ok a1 /\
    (ax_xscale a0 = "log" /\ ax_yscale a0 = "linear") /\
    (ax_xscale a1 = "log" /\ ax_yscale a1 = "log").
Proof.
  do 4 eexists.
  split; [vm_compute; reflexivity|].
  split; [vm_compute; reflexivity|].
  split; [vm_compute; reflexivity|].
  split.
  - refine (C4_axis_scales (pandas := reference_pandas) sample_files _ _ _ 0 1 _ _);
      vm_compute; reflexivity.
  - refine (C4_axis_scales (pandas := reference_pandas) sample_files _ _ _ 3 2 _ _);
      vm_compute; reflexivity.
Defined.

(** C4 as stated fails in the reward row: on the sample files the y axis of
    its first subplot is linear, not logarithmic. *)
Lemma C4_counterexample :
  exists systems fig a,
    main (pandas := reference_pandas) sample_files = Ok (systems, fig) /\
    ax_at (fig_axes fig) 0 0 = Ok a /\
    ax_yscale a <> "log".
Proof.
  do 3 eexists.
  split; [vm_compute; reflexivity|].
  split; [vm_compute; reflexivity|].
  vm_compute. discriminate.
Qed.

Lemma C5_rows_columns_and_frequency_witness :
  exists systems fig a,
    main (pandas := reference_pandas) sample_files = Ok (systems, fig) /\
    List.length (fig_axes fig) = 4 /\
    map fst systems = titles /\
    ax_at (fig_axes fig) 2 1 = Ok a /\
    map line_x (ax_lines a) =
      [[4; 2]; [4; 2]; [4; 2]; [1000; 2]]%float.
Proof.
  do 3 eexists.
  split; [vm_compute; reflexivity|].
  unshelve epose proof (C5_rows_columns_and_frequency (pandas := reference_pandas)
                          sample_files _ _ _) as (Hrows & _ & Htitles & _ & _);
    [| | vm_compute; reflexivity |].
  split; [exact Hrows|]. split; [exact Htitles|].
  split; vm_compute; reflexivity.
Defined.

Lemma C8_with_switch_cost_not_plotted_witness :
  exists r c h r' c' h',
    Reacher.baselines (pandas := reference_pandas) sample_files 0.1 = Ok r /\
    RCCar.baselines (pandas := reference_pandas) sample_files 0.1 0.5 = Ok c /\
    Halfcheetah.baselines (pandas := reference_pandas) sample_files 2 0.05 = Ok h /\
    Reacher.baselines (pandas := reference_pandas) sample_files_other_actions 0.1 = Ok r' /\
    RCCar.baselines (pandas := reference_pandas) sample_files_other_actions 0.1 0.5
      = Ok c' /\
    Halfcheetah.baselines (pandas := reference_pandas) sample_files_other_actions 2 0.05
      = Ok h' /\
    fst c <> fst c' /\
    main (pandas := reference_pandas) sample_files =
      main (pandas := reference_pandas) sample_files_other_actions.
Proof.
  do 6 eexists.
  do 6 (split; [vm_compute; reflexivity|]).
  split.
  - intros H.
    apply (f_equal (fun d : dict Statistics =>
                      match d with
                      | (_, st) :: _ => nth 0 (ys_mean st) nan
                      | [] => nan
                      end)) in H.
    float_discriminate H.
  - refine (proj1 (C8_with_switch_cost_not_plotted (pandas := reference_pandas)
                     sample_files sample_files_other_actions _ _ _ _ _ _
                     _ _ _ _ _ _ _ _ _));
      vm_compute; reflexivity.
Defined.

(** * Further properties of the script *)

(** ** Reverted dicts *)

Lemma dict_get_In {V : Type} (d : dict V) (k : string) (v : V) :
  dict_get d k = Ok v -> In (k, v) d.
Proof.
  induction d as [|[k0 v0] d IH]; simpl; [discriminate|].
  destruct (String.eqb_spec k0 k) as [->|Hne].
  - intros H. apply Ok_inj in H. subst. now left.
  - intros H. right. now apply IH.
Qed.

Lemma In_dict_get {V : Type} (d : dict V) (k : string) (v : V) :
  NoDup (map fst d) -> In (k, v) d -> dict_get d k = Ok v.
Proof.
  induction d as [|[k0 v0] d IH]; simpl; [contradiction|].
  intros Hnd [H|H].
  - injection H as -> ->. now rewrite String.eqb_refl.
  - inversion Hnd as [|? ? Hnotin Hnd']. subst.
    destruct (String.eqb_spec k0 k) as [->|Hne]; [|now apply IH].
    exfalso. apply Hnotin. change k with (fst (k, v)). now apply in_map.
Qed.

Lemma dict_get_key_error {V : Type} (d : dict V) (k : string) (e : exn) :
  dict_get d k = Raise e -> e = KeyError k.
Proof.
  induction d as [|[k0 v0] d IH]; simpl.
  - now intros [= <-].
  - destruct (String.eqb k0 k); [discriminate | exact IH].
Qed.

Lemma dict_revert_fold (d acc : dict string) (k v : string) :
  NoDup (map snd d) ->
  dict_get (fold_left (fun acc kv => dict_set acc (snd kv) (fst kv)) d acc) v = Ok k <->
  In (k, v) d \/ (~ In v (map snd d) /\ dict_get acc v = Ok k).
Proof.
  revert acc. induction d as [|[k0 v0] d IH]; simpl; intros acc Hnd.
  - intuition.
  - inversion Hnd as [|? ? Hnotin Hnd']. subst. rewrite (IH _ Hnd'). simpl.
    destruct (string_dec v0 v) as [->|Hne].
    + rewrite dict_get_set_same. split.
      * intros [H|[_ H]].
        -- exfalso. apply Hnotin. change v with (snd (k, v)). now apply in_map.
        -- apply Ok_inj in H. subst. auto.
      * intros [[H|H]|[H _]].
        -- injection H as ->. auto.
        -- exfalso. apply Hnotin. change v with (snd (k, v)). now apply in_map.
        -- exfalso. apply H. now left.
    + rewrite (dict_get_set_other acc v0 v k0 Hne). split.
      * intros [H|[H1 H2]]; [auto|]. right. split; [|exact H2]. intros [H|H]; auto.
      * intros [[H|H]|[H1 H2]]; [congruence | auto |]. right. split; [|exact H2]. auto.
Qed.

(** X1: [{value: key for key, value in d.items()}] inverts a dict whose
    keys are distinct and whose values are distinct: d[k] is v exactly
    when the reverted dict maps v to k. *)
Theorem X1_dict_revert_round_trip (d : dict string) (k v : string) :
  NoDup (map fst d) -> NoDup (map snd d) ->
  (dict_get d k = Ok v <-> dict_get (dict_revert d) v = Ok k).
Proof.
  intros Hk Hv. unfold dict_revert. rewrite (dict_revert_fold d [] k v Hv). split.
  - intros H. left. now apply dict_get_In.
  - intros [H|[_ H]]; [now apply In_dict_get | discriminate H].
Qed.

Lemma X1_dict_revert_round_trip_witness :
  NoDup (map fst BASELINE_NAMES) /\ NoDup (map snd BASELINE_NAMES) /\
  dict_get BASELINE_NAMES "basline2" = Ok (display "basline2") /\
  dict_get REVERT_BASELINE_NAMES (display "basline2") = Ok "basline2".
Proof.
  assert (H1 : NoDup (map fst BASELINE_NAMES)).
  { vm_compute. repeat constructor; simpl; intuition discriminate. }
  assert (H2 : NoDup (map snd BASELINE_NAMES)).
  { vm_compute. repeat constructor; simpl; intuition discriminate. }
  split; [exact H1|]. split; [exact H2|]. split; [reflexivity|].
  apply (proj1 (X1_dict_revert_round_trip BASELINE_NAMES "basline2" (display "basline2")
                  H1 H2)).
  reflexivity.
Defined.

(** ** What a call of [update_baselines] needs, changes and leaves alone *)

Section UpdateBaselinesFacts.
Context {pandas : Pandas}.

Lemma getitem_key_error (df : DataFrame) (col : string) (e : exn) :
  getitem df col = Raise e -> e = KeyError col.
Proof. apply dict_get_key_error. Qed.

Lemma base_number_of_steps_known (e : env) :
  exists n, dict_get BASE_NUMBER_OF_STEPS (env_name e) = Ok n.
Proof. destruct e; eexists; reflexivity. Qed.

(** An aggregation raises the KeyError of the first column it misses, in
    the order key, reward, penalty, and succeeds when it misses none. *)
Lemma aggregate_block_outcome (env penalty : string) (SWITCH_COST : float)
    (df : DataFrame) (name : string) (w wo : dict Statistics) (n : Z) :
  dict_get BASE_NUMBER_OF_STEPS env = Ok n ->
  match first_missing df ["new_integration_dt"; "results/total_reward"; penalty] with
  | Some c => aggregate_block env penalty SWITCH_COST df name w wo = Raise (KeyError c)
  | None => exists r, aggregate_block env penalty SWITCH_COST df name w wo = Ok r
  end.
Proof.
  intros Hn. unfold aggregate_block, first_missing.
  rewrite grouped_statistics_eq.
  destruct (getitem df "new_integration_dt") as [k|e] eqn:Hk.
  2:{ apply getitem_key_error in Hk. now subst. }
  destruct (getitem df "results/total_reward") as [r|e] eqn:Hr.
  2:{ apply getitem_key_error in Hr. now subst. }
  cbn [bind]. rewrite Hn. cbn [bind]. unfold assign_sub_scaled. rewrite Hr. cbn [bind].
  destruct (getitem df penalty) as [a|e] eqn:Ha.
  2:{ apply getitem_key_error in Ha. now subst. }
  cbn [bind]. rewrite grouped_statistics_eq. unfold getitem, setitem in *.
  rewrite dict_get_set_other by discriminate. rewrite Hk, dict_get_set_same, Hn.
  cbn [bind]. eexists. reflexivity.
Qed.

Lemma mean_over_evals_columns (df : DataFrame) :
  (exists r, getitem (Reacher.mean_over_evals df) "results/total_reward" = Ok r) /\
  (exists a, getitem (Reacher.mean_over_evals df) "results/num_actions" = Ok a).
Proof.
  unfold Reacher.mean_over_evals, getitem, setitem. split; eexists.
  - rewrite dict_get_set_other by discriminate. apply dict_get_set_same.
  - apply dict_get_set_same.
Qed.

(** X2: a call of update_baselines raises KeyError for the first column it
    reads and the frame lacks (new_integration_dt, then results/total_reward,
    then results/num_actions), and succeeds when none is missing.  The
    reacher definition computes the reward and action columns itself and so
    needs new_integration_dt only. *)
Theorem X2_update_baselines_key_errors (e : env) (SWITCH_COST : float)
    (cur_data : DataFrame) (baseline_name : string) (w wo : dict Statistics) :
  match first_missing cur_data (columns_read e) with
  | Some c =>
      update_baselines_of e SWITCH_COST cur_data baseline_name w wo = Raise (KeyError c)
  | None =>
      exists r, update_baselines_of e SWITCH_COST cur_data baseline_name w wo = Ok r
  end.
Proof.
  rewrite update_baselines_of_eq.
  destruct (base_number_of_steps_known e) as (n & Hn).
  pose proof (aggregate_block_outcome (env_name e) "results/num_actions" SWITCH_COST
                (frame_of e cur_data) baseline_name w wo n Hn) as H.
  destruct e; try exact H.
  simpl frame_of in *. unfold columns_read, first_missing in *.
  rewrite mean_over_evals_keys in H.
  destruct (getitem cur_data "new_integration_dt") as [k|e]; [|exact H].
  destruct (mean_over_evals_columns cur_data) as ((r & Hr) & (a & Ha)).
  rewrite Hr, Ha in H. exact H.
Qed.

Lemma dict_keys_set {V : Type} (d : dict V) (k : string) (v : V) :
  dict_keys (dict_set d k v) =
    if dict_contains d k then dict_keys d else (dict_keys d ++ [k])%list.
Proof.
  unfold dict_contains, dict_keys. induction d as [|[k0 v0] d IH]; simpl; [reflexivity|].
  rewrite (String.eqb_sym k k0).
  destruct (String.eqb_spec k0 k) as [->|Hne]; simpl; [reflexivity|].
  rewrite IH. now destruct (existsb (String.eqb k) (map fst d)).
Qed.

(** X3: a successful call of update_baselines stores under baseline_name
    only: every other entry of both dicts is left as it was, a name the
    dict already holds keeps its position and a new name goes last; in the
    frame only the columns the function writes can change. *)
Theorem X3_update_baselines_touches_its_name_only (e : env) (SWITCH_COST : float)
    (cur_data : DataFrame) (baseline_name : string) (w wo : dict Statistics)
    (cur' : DataFrame) (w' wo' : dict Statistics) :
  update_baselines_of e SWITCH_COST cur_data baseline_name w wo = Ok (cur', (w', wo')) ->
  (forall n, n <> baseline_name ->
     dict_get w' n = dict_get w n /\ dict_get wo' n = dict_get wo n) /\
  dict_keys w' = (if dict_contains w baseline_name then dict_keys w
                  else (dict_keys w ++ [baseline_name])%list) /\
  dict_keys wo' = (if dict_contains wo baseline_name then dict_keys wo
                   else (dict_keys wo ++ [baseline_name])%list) /\
  (forall col, ~ In col (columns_written e) -> getitem cur' col = getitem cur_data col).
Proof.
  intros H.
  apply update_baselines_of_Ok in H as (k & r & a & n & Hk & Hr & Ha & Hn & -> & -> & ->).
  split; [|split; [|split]].
  - intros m Hm. split; apply dict_get_set_other; congruence.
  - apply dict_keys_set.
  - apply dict_keys_set.
  - intros col Hcol. unfold getitem, setitem.
    destruct e; simpl in Hcol; unfold frame_of, Reacher.mean_over_evals, setitem;
      rewrite !dict_get_set_other; try reflexivity; intros E; subst col; apply Hcol; auto.
Qed.

End UpdateBaselinesFacts.

Lemma X2_update_baselines_key_errors_witness :
  RCCar.update_baselines (pandas := reference_pandas) 0.1 rccar_naive_model_csv
    "Switch-Cost-CTRL" [] [] = Raise (KeyError "results/total_reward") /\
  exists r, Reacher.update_baselines (pandas := reference_pandas) 0.1
              rccar_naive_model_csv "Switch-Cost-CTRL" [] [] = Ok r.
Proof.
  split.
  - exact (X2_update_baselines_key_errors (pandas := reference_pandas) rccar 0.1
             rccar_naive_model_csv "Switch-Cost-CTRL" [] []).
  - exact (X2_update_baselines_key_errors (pandas := reference_pandas) reacher 0.1
             rccar_naive_model_csv "Switch-Cost-CTRL" [] []).
Defined.

Lemma X3_update_baselines_touches_its_name_only_witness :
  exists cur' w' wo',
    RCCar.update_baselines (pandas := reference_pandas) 0.1 rccar_no_switch_cost_csv
      "second" [("first", stats_two_steps)] [("first", stats_no_group)]
      = Ok (cur', (w', wo')) /\
    dict_get w' "first" = Ok stats_two_steps /\
    dict_get wo' "first" = Ok stats_no_group /\
    dict_keys w' = ["first"; "second"].
Proof.
  destruct (RCCar.update_baselines (pandas := reference_pandas) 0.1
              rccar_no_switch_cost_csv "second" [("first", stats_two_steps)]
              [("first", stats_no_group)])
    as [[cur' [w' wo']]|e] eqn:E; [|vm_compute in E; discriminate E].
  destruct (X3_update_baselines_touches_its_name_only (pandas := reference_pandas) rccar
              0.1 rccar_no_switch_cost_csv "second" _ _ cur' w' wo' E)
    as (Hother & Hkeys & _ & _).
  exists cur', w', wo'. split; [reflexivity|].
  destruct (Hother "first") as (H1 & H2); [discriminate|].
  split; [exact H1|]. split; [exact H2 | exact Hkeys].
Defined.

(** ** The order and the sharing of group keys *)

Lemma SFcompare_defined (x y : spec_float) :
  x <> S754_nan -> y <> S754_nan -> exists c, SFcompare x y = Some c.
Proof.
  destruct x, y; simpl; intros Hx Hy; try congruence; eauto.
Qed.

Lemma notna_not_nan (a : float) : notna a = true -> Prim2SF a <> S754_nan.
Proof.
  unfold notna. rewrite eqb_spec. intros H E. rewrite E in H. discriminate H.
Qed.

(** Two floats that are not NaN compare one way or the other. *)
Lemma float_leb_total (a b : float) :
  notna a = true -> notna b = true -> (a <=? b)%float = false -> (b <=? a)%float = true.
Proof.
  intros Ha Hb. rewrite !leb_spec. unfold SFleb.
  rewrite (SFcompare_antisym (Prim2SF a) (Prim2SF b)).
  destruct (SFcompare_defined _ _ (notna_not_nan a Ha) (notna_not_nan b Hb)) as (c & ->).
  destruct c; simpl; congruence.
Qed.

Lemma float_ltb_of_leb (a b : float) :
  (a <=? b)%float = true -> (a =? b)%float = false -> (a <? b)%float = true.
Proof.
  rewrite leb_spec, eqb_spec, ltb_spec. unfold SFleb, SFeqb, SFltb.
  destruct (SFcompare (Prim2SF a) (Prim2SF b)) as [[]|]; congruence.
Qed.

Lemma insert_key_notna (k : float) (l : list float) :
  notna k = true -> Forall (fun x => notna x = true) l ->
  Forall (fun x => notna x = true) (insert_key k l).
Proof.
  intros Hk Hl. apply Forall_forall. intros x Hx.
  apply insert_key_In in Hx as [->|Hx]; [exact Hk|].
  rewrite Forall_forall in Hl. now apply Hl.
Qed.

Lemma insert_key_sorted (k : float) (l : list float) :
  notna k = true -> Forall (fun x => notna x = true) l ->
  Sorted (fun a b => (a <=? b)%float = true) l ->
  Sorted (fun a b => (a <=? b)%float = true) (insert_key k l).
Proof.
  intros Hk Hna Hs. induction Hs as [|x l Hs IH Hhd]; simpl.
  - repeat constructor.
  - inversion Hna as [|? ? Hx Hna']. subst.
    destruct (k <=? x)%float eqn:E.
    + constructor; [now constructor | now constructor].
    + constructor; [now apply IH|].
      destruct l as [|y l]; simpl.
      * constructor. now apply float_leb_total.
      * destruct (k <=? y)%float.
        -- constructor. now apply float_leb_total.
        -- inversion Hhd. now constructor.
Qed.

Lemma sort_keys_notna (l : list float) :
  Forall (fun x => notna x = true) l -> Forall (fun x => notna x = true) (sort_keys l).
Proof.
  intros H. apply Forall_forall. intros x Hx.
  apply (proj1 (sort_keys_In x l)) in Hx.
  rewrite Forall_forall in H. now apply H.
Qed.

Lemma sort_keys_sorted (l : list float) :
  Forall (fun x => notna x = true) l ->
  Sorted (fun a b => (a <=? b)%float = true) (sort_keys l).
Proof.
  induction 1 as [|x l Hx Hl IH]; [constructor|].
  change (sort_keys (x :: l)) with (insert_key x (sort_keys l)).
  apply insert_key_sorted; [exact Hx | now apply sort_keys_notna | exact IH].
Qed.

Lemma sorted_distinct_strict (l : list float) :
  Sorted (fun a b => (a <=? b)%float = true) l -> distinct l ->
  Sorted (fun a b => (a <? b)%float = true) l.
Proof.
  induction 1 as [|x l Hs IH Hhd]; intros Hd; [constructor|].
  inversion Hd as [|? ? Hx Hd']. subst. constructor; [now apply IH|].
  destruct Hhd as [|y l Hxy]; constructor.
  apply float_ltb_of_leb; [exact Hxy|]. apply Hx. now left.
Qed.

(** The keys of a group-by come out strictly ascending. *)
Lemma group_keys_ascending (keys : ndarray) :
  Sorted (fun a b => (a <? b)%float = true) (group_keys keys).
Proof.
  apply sorted_distinct_strict.
  - apply sort_keys_sorted. apply Forall_forall. intros x Hx.
    apply unique_keys_In in Hx. apply filter_In in Hx. tauto.
  - apply sort_keys_distinct, unique_keys_distinct.
Qed.

(** No group key exactly when the key column has no cell that is not missing. *)
Lemma group_keys_empty (keys : ndarray) :
  group_keys keys = [] <-> (forall k, In k keys -> notna k = false).
Proof.
  destruct (group_keys_distinct_values keys) as (_ & Hin & Hcover). split.
  - intros E k Hk. destruct (notna k) eqn:Hna; [|reflexivity].
    destruct (Hcover k Hk Hna) as (v & Hv & _). rewrite E in Hv. contradiction.
  - intros H. destruct (group_keys keys) as [|v l]; [reflexivity|].
    destruct (Hin v (or_introl eq_refl)) as (Hv & Hna).
    rewrite (H v Hv) in Hna. discriminate.
Qed.

Section SharedKeys.
Context {pandas : Pandas}.

Lemma frame_of_keys (e : env) (df : DataFrame) :
  getitem (frame_of e df) "new_integration_dt" = getitem df "new_integration_dt".
Proof. destruct e; try reflexivity. apply mean_over_evals_keys. Qed.

(** X4: the Statistics a call of update_baselines stores with and without
    switch cost describe the same groups: they have the same xs and the
    same base_number_of_steps (the constant of the environment), and in
    each of them xs, ys_mean and ys_std have one length.  xs is empty
    exactly when no cell of the new_integration_dt column of the frame is
    other than missing. *)
Theorem X4_statistics_share_groups (e : env) (SWITCH_COST : float)
    (cur_data : DataFrame) (baseline_name : string) (w wo : dict Statistics)
    (cur' : DataFrame) (w' wo' : dict Statistics) :
  update_baselines_of e SWITCH_COST cur_data baseline_name w wo = Ok (cur', (w', wo')) ->
  exists st' st keys,
    dict_get w' baseline_name = Ok st' /\
    dict_get wo' baseline_name = Ok st /\
    getitem cur_data "new_integration_dt" = Ok keys /\
    xs st' = xs st /\
    base_number_of_steps st' = base_number_of_steps st /\
    dict_get BASE_NUMBER_OF_STEPS (env_name e) = Ok (base_number_of_steps st) /\
    (List.length (ys_mean st) = List.length (xs st) /\
     List.length (ys_std st) = List.length (xs st) /\
     List.length (ys_mean st') = List.length (xs st) /\
     List.length (ys_std st') = List.length (xs st)) /\
    (xs st = [] <-> forall k, In k (values keys) -> notna k = false).
Proof.
  intros H.
  apply update_baselines_of_Ok in H as (k & r & a & n & Hk & Hr & Ha & Hn & -> & -> & ->).
  rewrite frame_of_keys in Hk.
  do 2 eexists. exists k. rewrite !dict_get_set_same.
  split; [reflexivity|]. split; [reflexivity|]. split; [exact Hk|].
  simpl. rewrite !length_map. repeat split; auto; apply group_keys_empty.
Qed.

(** X5: the xs of the Statistics a call of update_baselines stores are
    strictly ascending: each time step is smaller than the next one, as the
    group-by sorts its keys. *)
Theorem X5_xs_strictly_ascending (e : env) (SWITCH_COST : float)
    (cur_data : DataFrame) (baseline_name : string) (w wo : dict Statistics)
    (cur' : DataFrame) (w' wo' : dict Statistics) :
  update_baselines_of e SWITCH_COST cur_data baseline_name w wo = Ok (cur', (w', wo')) ->
  exists st' st,
    dict_get w' baseline_name = Ok st' /\
    dict_get wo' baseline_name = Ok st /\
    Sorted (fun a b => (a <? b)%float = true) (xs st') /\
    Sorted (fun a b => (a <? b)%float = true) (xs st).
Proof.
  intros H.
  apply update_baselines_of_Ok in H as (k & r & a & n & Hk & Hr & Ha & Hn & -> & -> & ->).
  do 2 eexists. rewrite !dict_get_set_same.
  split; [reflexivity|]. split; [reflexivity|].
  split; apply group_keys_ascending.
Qed.

End SharedKeys.

Lemma X4_statistics_share_groups_witness :
  exists cur' w' wo' st' st,
    RCCar.update_baselines (pandas := reference_pandas) 0.1 rccar_no_switch_cost_csv
      "Switch-Cost-CTRL" [] [] = Ok (cur', (w', wo')) /\
    dict_get w' "Switch-Cost-CTRL" = Ok st' /\
    dict_get wo' "Switch-Cost-CTRL" = Ok st /\
    xs st' = xs st /\ base_number_of_steps st = 50000%Z.
Proof.
  destruct (RCCar.update_baselines (pandas := reference_pandas) 0.1
              rccar_no_switch_cost_csv "Switch-Cost-CTRL" [] [])
    as [[cur' [w' wo']]|e] eqn:E; [|vm_compute in E; discriminate E].
  destruct (X4_statistics_share_groups (pandas := reference_pandas) rccar 0.1
              rccar_no_switch_cost_csv "Switch-Cost-CTRL" [] [] cur' w' wo' E)
    as (st' & st & keys & H1 & H2 & _ & Hxs & _ & Hbase & _).
  exists cur', w', wo', st', st. split; [reflexivity|].
  split; [exact H1|]. split; [exact H2|]. split; [exact Hxs|].
  simpl in Hbase. apply Ok_inj in Hbase. now symmetry.
Defined.

Lemma X5_xs_strictly_ascending_witness :
  exists cur' w' wo' st,
    RCCar.update_baselines (pandas := reference_pandas) 0.1 rccar_no_switch_cost_csv
      "Switch-Cost-CTRL" [] [] = Ok (cur', (w', wo')) /\
    dict_get wo' "Switch-Cost-CTRL" = Ok st /\
    Sorted (fun a b => (a <? b)%float = true) (xs st).
Proof.
  destruct (RCCar.update_baselines (pandas := reference_pandas) 0.1
              rccar_no_switch_cost_csv "Switch-Cost-CTRL" [] [])
    as [[cur' [w' wo']]|e] eqn:E; [|vm_compute in E; discriminate E].
  destruct (X5_xs_strictly_ascending (pandas := reference_pandas) rccar 0.1
              rccar_no_switch_cost_csv "Switch-Cost-CTRL" [] [] cur' w' wo' E)
    as (st' & st & _ & H2 & _ & Hs).
  exists cur', w', wo', st. split; [reflexivity|]. split; assumption.
Defined.

(** ** The per-evaluation loop of reacher *)

Lemma append_inj_l (p s t : string) : (p ++ s = p ++ t)%string -> s = t.
Proof.
  induction p as [|c p IH]; simpl; intros H; [exact H|].
  injection H as H. now apply IH.
Qed.

Lemma dict_set_same_value {V : Type} (d : dict V) (k : string) (v : V) :
  dict_get d k = Ok v -> dict_set d k v = d.
Proof.
  induction d as [|[k0 v0] d IH]; simpl; [discriminate|].
  destruct (String.eqb_spec k0 k) as [->|Hne].
  - intros H. apply Ok_inj in H. now subst.
  - intros H. now rewrite IH.
Qed.

Lemma for_each_fixed {A S : Type} (l : list A) (body : A -> S -> result S) (s : S) :
  (forall x, In x l -> body x s = Ok s) -> for_each l body s = Ok s.
Proof.
  induction l as [|x l IH]; simpl; intros H; [reflexivity|].
  rewrite (H x (or_introl eq_refl)). simpl. apply IH. intros y Hy. apply H. now right.
Qed.

(** A turn of the loop leaves alone every column but the one it writes. *)
Lemma add_reward_loop_unwritten (SWITCH_COST : float) (l : list nat) (df df' : DataFrame)
    (col : string) :
  for_each l (Reacher.add_reward_with_switch_cost SWITCH_COST) df = Ok df' ->
  ~ In col (map (fun i => "results/reward_with_switch_cost_" ++ str i) l) ->
  getitem df' col = getitem df col.
Proof.
  revert df. induction l as [|i l IH]; simpl; intros df H Hcol.
  - now injection H as <-.
  - bind_inv H as d Hd. rewrite (IH _ H) by tauto.
    unfold Reacher.add_reward_with_switch_cost in Hd.
    eapply assign_sub_scaled_other; [exact Hd|]. intros E. apply Hcol. now left.
Qed.

(** After the loop the column of every index holds the reward minus the
    penalty of that index, computed from the frame the loop started on. *)
Lemma add_reward_loop_written (SWITCH_COST : float) (l : list nat) (df df' : DataFrame) :
  for_each l (Reacher.add_reward_with_switch_cost SWITCH_COST) df = Ok df' ->
  forall i, In i l ->
    exists x y,
      getitem df ("results/total_reward_" ++ str i) = Ok x /\
      getitem df ("results/num_actions_" ++ str i) = Ok y /\
      getitem df' ("results/reward_with_switch_cost_" ++ str i)
        = Ok (sub_scaled SWITCH_COST x y).
Proof.
  revert df. induction l as [|j l IH]; simpl; intros df H i Hi; [contradiction|].
  bind_inv H as d Hd.
  assert (Hsrc : forall col, String.prefix "results/reward_with_switch_cost" col = false ->
                             getitem d col = getitem df col).
  { intros col Hcol. unfold Reacher.add_reward_with_switch_cost in Hd.
    eapply assign_sub_scaled_other; [exact Hd|].
    apply derived_name_differs; [reflexivity | exact Hcol]. }
  assert (Hlater : forall i', In i' l ->
            exists x y,
              getitem df ("results/total_reward_" ++ str i') = Ok x /\
              getitem df ("results/num_actions_" ++ str i') = Ok y /\
              getitem df' ("results/reward_with_switch_cost_" ++ str i')
                = Ok (sub_scaled SWITCH_COST x y)).
  { intros i' Hi'. destruct (IH _ H i' Hi') as (x & y & Hx & Hy & Hv).
    rewrite Hsrc in Hx by reflexivity. rewrite Hsrc in Hy by reflexivity. eauto. }
  destruct (in_dec string_dec ("results/reward_with_switch_cost_" ++ str j)
              (map (fun i => "results/reward_with_switch_cost_" ++ str i) l))
    as [Hin|Hnotin].
  - apply in_map_iff in Hin as (i' & E & Hi').
    apply append_inj_l in E.
    destruct Hi as [<-|Hi]; [|now apply Hlater].
    rewrite <- E. now apply Hlater.
  - destruct Hi as [<-|Hi]; [|now apply Hlater].
    unfold Reacher.add_reward_with_switch_cost, assign_sub_scaled in Hd.
    bind_inv Hd as x Hx. bind_inv Hd as y Hy. injection Hd as <-.
    exists x, y. split; [exact Hx|]. split; [exact Hy|].
    etransitivity; [exact (add_reward_loop_unwritten _ _ _ _ _ H Hnotin)|].
    apply dict_get_set_same.
Qed.

(** X6: the loop [for index in range(NUM_EVALS)] that adds the columns
    results/reward_with_switch_cost_{index} is idempotent: run again on the
    frame it produced, it succeeds and leaves that frame as it is.  The
    third loop of the reacher part, which writes into data_equidistant a
    second time instead of data_equidistant_naive, so changes nothing. *)
Theorem X6_reward_loop_idempotent (SWITCH_COST : float) (df df' : DataFrame) :
  for_each (range NUM_EVALS) (Reacher.add_reward_with_switch_cost SWITCH_COST) df = Ok df' ->
  for_each (range NUM_EVALS) (Reacher.add_reward_with_switch_cost SWITCH_COST) df' = Ok df'.
Proof.
  intros H. apply for_each_fixed. intros i Hi.
  destruct (add_reward_loop_written _ _ _ _ H i Hi) as (x & y & Hx & Hy & Hv).
  unfold Reacher.add_reward_with_switch_cost, assign_sub_scaled.
  rewrite (add_reward_loop_other _ _ _ _ _ H) by reflexivity. rewrite Hx. cbn [bind].
  rewrite (add_reward_loop_other _ _ _ _ _ H) by reflexivity. rewrite Hy. cbn [bind].
  unfold setitem. now rewrite (dict_set_same_value _ _ _ Hv).
Qed.

Lemma X6_reward_loop_idempotent_witness :
  exists df',
    for_each (range NUM_EVALS) (Reacher.add_reward_with_switch_cost 0.1)
      reacher_no_switch_cost_csv = Ok df' /\
    for_each (range NUM_EVALS) (Reacher.add_reward_with_switch_cost 0.1) df' = Ok df'.
Proof.
  destruct (for_each (range NUM_EVALS) (Reacher.add_reward_with_switch_cost 0.1)
              reacher_no_switch_cost_csv) as [df'|e] eqn:E;
    [|vm_compute in E; discriminate E].
  exists df'. split; [reflexivity|].
  exact (X6_reward_loop_idempotent 0.1 reacher_no_switch_cost_csv df' E).
Defined.

(** ** The split by the gradient-update flag *)

Lemma select_partition {A : Type} (mask : list bool) (l : list A) :
  List.length l = List.length mask ->
  Permutation (select mask l ++ select (map negb mask) l) l.
Proof.
  revert l. induction mask as [|b mask IH]; intros [|x l]; simpl; try discriminate.
  - constructor.
  - intros H. injection H as H. destruct b; simpl.
    + constructor. now apply IH.
    + apply Permutation_sym, Permutation_cons_app, Permutation_sym. now apply IH.
Qed.

Lemma values_length (s : Series) : List.length (values s) = series_len s.
Proof. destruct s; simpl; [reflexivity | apply length_map]. Qed.

Lemma series_eq_bool_flag (m : list bool) :
  series_eq_bool (BoolSeries m) true = m /\
  series_eq_bool (BoolSeries m) false = map negb m.
Proof.
  simpl. split.
  - rewrite <- (map_id m) at 2. apply map_ext. now intros [].
  - apply map_ext. now intros [].
Qed.

(** X7: the two frames [df[df[flag] == True]] and [df[df[flag] == False]]
    of a bool flag column split the rows of the frame: in every column as
    long as the flag column, the cells of the two frames together are the
    cells of the column, each once. *)
Theorem X7_flag_split_is_a_partition (df same more : DataFrame) (flag : string)
    (m : list bool) :
  getitem df flag = Ok (BoolSeries m) ->
  where_flag df flag true = Ok same ->
  where_flag df flag false = Ok more ->
  forall col s, getitem df col = Ok s -> series_len s = List.length m ->
    exists s1 s2,
      getitem same col = Ok s1 /\ getitem more col = Ok s2 /\
      Permutation (values s1 ++ values s2) (values s).
Proof.
  unfold where_flag. intros Hflag Hsame Hmore col s Hcol Hlen.
  rewrite Hflag in Hsame, Hmore. cbn [bind] in Hsame, Hmore.
  destruct (series_eq_bool_flag m) as (Et & Ef). rewrite Et in Hsame. rewrite Ef in Hmore.
  apply Ok_inj in Hsame, Hmore. subst same more.
  rewrite !getitem_loc_mask, Hcol. cbn [bind].
  do 2 eexists. split; [reflexivity|]. split; [reflexivity|].
  rewrite !values_series_select. apply select_partition.
  now rewrite values_length.
Qed.

Lemma X7_flag_split_is_a_partition_witness :
  exists same more s1 s2,
    where_flag rccar_no_switch_cost_csv "same_amount_of_gradient_updates" true = Ok same /\
    where_flag rccar_no_switch_cost_csv "same_amount_of_gradient_updates" false = Ok more /\
    getitem same "results/total_reward" = Ok s1 /\
    getitem more "results/total_reward" = Ok s2 /\
    Permutation (values s1 ++ values s2) [10; 20; 30; 14]%float.
Proof.
  destruct (where_flag rccar_no_switch_cost_csv "same_amount_of_gradient_updates" true)
    as [same|e] eqn:E1; [|vm_compute in E1; discriminate E1].
  destruct (where_flag rccar_no_switch_cost_csv "same_amount_of_gradient_updates" false)
    as [more|e] eqn:E2; [|vm_compute in E2; discriminate E2].
  destruct (X7_flag_split_is_a_partition rccar_no_switch_cost_csv same more
              "same_amount_of_gradient_updates" [true; false; true; false]
              eq_refl E1 E2 "results/total_reward"
              (FloatSeries [10; 20; 30; 14]%float) eq_refl eq_refl)
    as (s1 & s2 & H1 & H2 & Hp).
  exists same, more, s1, s2. repeat split; assumption.
Defined.

(** ** The legend *)






